(** * IAC-Analyser: a shallow embedding of [cli_analyzer.py]

    The development follows the source file top to bottom: the chunker
    ([chunk_text]), the prompt loader ([load_prompt]), the analysis invoker
    with its response normalizer ([analyze_with_bedrock]) and the
    orchestrating loop of [main].

    Python [str] values are modelled as [string], read as sequences of code
    points below 256.  Exceptions are modelled by the [result] type, the
    mutable report dictionaries by [gmap]s, and the remote model service by
    an oracle that sees the history of requests. *)

From Stdlib Require Import String Ascii ZArith List Lia.
From stdpp Require Import base gmap strings list.

#[local] Arguments String.append : simpl nomatch.

(** ** Exceptions *)

(** The exception classes the program can meet.  All of them derive from
    Python's [Exception], so every [except Exception] clause catches them. *)
Inductive exn : Type :=
  | FileNotFoundError (path : string)
  | OSError (msg : string)
  | ValueError (msg : string)
  | JSONDecodeError (msg : string)
  | KeyError (key : string)
  | TypeError (msg : string)
  | AttributeError (msg : string)
  | ClientError (msg : string).

Inductive result (A : Type) : Type :=
  | Ok (a : A)
  | Raise (e : exn).
Arguments Ok {A} a.
Arguments Raise {A} e.

Definition is_ok {A} (r : result A) : bool :=
  match r with Ok _ => true | Raise _ => false end.

(** ** Python string primitives *)

Module PyStr.

(** [s[:n]] *)
Fixpoint take (n : nat) (s : string) : string :=
  match n, s with
  | S n', String c s' => String c (take n' s')
  | _, _ => ""
  end.

(** [s[n:]] *)
Fixpoint drop (n : nat) (s : string) : string :=
  match n, s with
  | S n', String _ s' => drop n' s'
  | _, _ => s
  end.

(** [s[i:j]] for non-negative [i] and [j]: both ends are clipped to
    [len(s)], and the slice is empty when [j <= i]. *)
Definition slice (s : string) (i j : nat) : string :=
  take (j - i) (drop i s).

(** ["".join(l)] *)
Fixpoint join (l : list string) : string :=
  match l with
  | [] => ""
  | s :: l' => s +:+ join l'
  end.

(** [s.startswith(p)] *)
Fixpoint startswith (p s : string) : bool :=
  match p, s with
  | "", _ => true
  | String a p', String b s' => if Ascii.eqb a b then startswith p' s' else false
  | String _ _, "" => false
  end.

(** [s.endswith(p)] *)
Definition endswith (p s : string) : bool :=
  Nat.leb (String.length p) (String.length s)
  && String.eqb (drop (String.length s - String.length p) s) p.

(** [c.lower()] on code points below 256: the ASCII capitals and the
    Latin-1 capitals (192 to 222, the multiplication sign 215 apart) move up
    by 32. *)
Definition lower_char (c : ascii) : ascii :=
  let n := nat_of_ascii c in
  if (Nat.leb 65 n && Nat.leb n 90)
     || (Nat.leb 192 n && Nat.leb n 222 && negb (Nat.eqb n 215))
  then ascii_of_nat (n + 32) else c.

(** [s.lower()] *)
Fixpoint lower (s : string) : string :=
  match s with
  | "" => ""
  | String c s' => String (lower_char c) (lower s')
  end.

(** The scan of [s.replace(old, new)] for a non-empty [old]: [skip] counts
    the characters of a match of [old] that are still to be passed over. *)
Fixpoint replace_loop (old new : string) (skip : nat) (s : string) : string :=
  match s with
  | "" => ""
  | String c s' =>
      match skip with
      | S k => replace_loop old new k s'
      | 0 =>
          if startswith old s
          then new +:+ replace_loop old new (String.length old - 1) s'
          else String c (replace_loop old new 0 s')
      end
  end.

(** [s.replace(old, new)], every non-overlapping occurrence from the left;
    the program calls it with a non-empty [old] only. *)
Definition replace (old new s : string) : string :=
  replace_loop old new 0 s.

(** [c.isspace()] on code points below 256. *)
Definition is_space (c : ascii) : bool :=
  let n := nat_of_ascii c in
  (Nat.leb 9 n && Nat.leb n 13) || (Nat.leb 28 n && Nat.leb n 32)
  || Nat.eqb n 133 || Nat.eqb n 160.

(** [s.lstrip()] *)
Fixpoint lstrip (s : string) : string :=
  match s with
  | "" => ""
  | String c s' => if is_space c then lstrip s' else s
  end.

(** [s.rstrip()]: a character stays when it is not white space or when
    something after it stays. *)
Fixpoint rstrip (s : string) : string :=
  match s with
  | "" => ""
  | String c s' =>
      match rstrip s' with
      | "" => if is_space c then "" else String c ""
      | String c' r => String c (String c' r)
      end
  end.

(** [s.strip()] *)
Definition strip (s : string) : string := rstrip (lstrip s).

(** [os.path.join(a, b)] of [posixpath]. *)
Definition path_join (a b : string) : string :=
  if startswith "/" b then b
  else if String.eqb a "" || endswith "/" a then a +:+ b
  else a +:+ "/" +:+ b.

End PyStr.

(** ** The chunker *)

(** [list(range(i, stop, step))] for a positive [step].  The loop runs on a
    counter that is at least the number of indices left, so that it is
    structurally recursive; [py_range_fuel] shows the counter never cuts the
    range short. *)
Fixpoint range_loop (fuel i stop step : nat) : list nat :=
  match fuel with
  | 0 => []
  | S fuel' =>
      if Nat.ltb i stop then i :: range_loop fuel' (i + step) stop step else []
  end.

Definition py_range (start stop step : nat) : list nat :=
  range_loop (stop - start) start stop step.

(** [chunk_text(text, max_chars)].  [range] raises [ValueError] for a zero
    step and is empty for a negative one. *)
Definition chunk_text (text : string) (max_chars : Z) : result (list string) :=
  if (max_chars =? 0)%Z then Raise (ValueError "range() arg 3 must not be zero")
  else if (max_chars <? 0)%Z then Ok []
  else
    let step := Z.to_nat max_chars in
    Ok (map (fun i => PyStr.slice text i (i + step))
            (py_range 0 (String.length text) step)).

(** The default value of [max_chars]. *)
Definition default_max_chars : Z := 2000.

(** [ceil(a / b)] on naturals. *)
Definition ceil_div (a b : nat) : nat := (a + b - 1) / b.

(** ** The file system and the prompt loader *)

(** What [open(path).read()] meets at a path: readable text, or an entry
    that raises (permissions, a directory, bytes that do not decode). *)
Inductive file : Type :=
  | Readable (content : string)
  | Unreadable (e : exn).

(** [with open(path, "r") as f: f.read()] *)
Definition read_file (fs : gmap string file) (path : string) : result string :=
  match fs !! path with
  | None => Raise (FileNotFoundError path)
  | Some (Readable content) => Ok content
  | Some (Unreadable e) => Raise e
  end.

(** The name under which a pillar's template is stored:
    [pillar.lower().replace(" ", "_") + ".txt"] under [prompts]. *)
Definition prompt_filename (pillar : string) : string :=
  PyStr.replace " " "_" (PyStr.lower pillar) +:+ ".txt".

Definition prompt_path (pillar : string) : string :=
  PyStr.path_join "prompts" (prompt_filename pillar).

Definition placeholder : string := "{code}".

(** [load_prompt(pillar, code)] *)
Definition load_prompt (fs : gmap string file) (pillar code : string)
  : result string :=
  match read_file fs (prompt_path pillar) with
  | Ok template => Ok (PyStr.replace placeholder code template)
  | Raise e => Raise e
  end.

(** ** Values produced by [json.loads] and stored in the report *)

(** A float is kept as the text it was read from. *)
#[warnings="-register-all"]
Inductive json : Type :=
  | JNull
  | JBool (b : bool)
  | JInt (z : Z)
  | JFloat (lexeme : string)
  | JStr (s : string)
  | JList (l : list json)
  | JDict (d : list (string * json)).

(** [d[k]] on a dictionary whose keys are distinct, in insertion order. *)
Fixpoint dict_get (d : list (string * json)) (k : string) : option json :=
  match d with
  | [] => None
  | (k', v) :: d' => if String.eqb k' k then Some v else dict_get d' k
  end.

(** [d[k] = v]: the value is replaced where the key is, or the pair is added
    at the end. *)
Fixpoint dict_set (d : list (string * json)) (k : string) (v : json)
  : list (string * json) :=
  match d with
  | [] => [(k, v)]
  | (k', v') :: d' =>
      if String.eqb k' k then (k', v) :: d' else (k', v') :: dict_set d' k v
  end.

(** ** Reading the text blocks of a reply

    The exceptions raised here have the class CPython raises; their
    messages are shortened: CPython's also name the type of the value, and
    for [join] the index of the item. *)

Fixpoint chars (s : string) : list json :=
  match s with
  | "" => []
  | String c s' => JStr (String c "") :: chars s'
  end.

(** [data.get("content", [])]: only a dictionary has [get]. *)
Definition get_content (data : json) : result json :=
  match data with
  | JDict d =>
      match dict_get d "content" with
      | Some v => Ok v
      | None => Ok (JList [])
      end
  | _ => Raise (AttributeError "object has no attribute 'get'")
  end.

(** What [for c in content] runs over: the items of a list, the keys of a
    dictionary, the characters of a string, and a [TypeError] otherwise. *)
Definition iter_items (content : json) : result (list json) :=
  match content with
  | JList l => Ok l
  | JDict d => Ok (map (fun kv => JStr (fst kv)) d)
  | JStr s => Ok (chars s)
  | _ => Raise (TypeError "object is not iterable")
  end.

(** [c[key]] for a string [key] *)
Definition subscript (c : json) (key : string) : result json :=
  match c with
  | JDict d =>
      match dict_get d key with
      | Some v => Ok v
      | None => Raise (KeyError key)
      end
  | JList _ => Raise (TypeError "list indices must be integers or slices, not str")
  | JStr _ => Raise (TypeError "string indices must be integers, not 'str'")
  | _ => Raise (TypeError "object is not subscriptable")
  end.

Definition is_text_tag (v : json) : bool :=
  match v with
  | JStr s => String.eqb s "text"
  | _ => false
  end.

(** [[c["text"] for c in items if c["type"] == "text"]] *)
Fixpoint text_blocks (items : list json) : result (list json) :=
  match items with
  | [] => Ok []
  | c :: items' =>
      match subscript c "type" with
      | Raise e => Raise e
      | Ok ty =>
          if is_text_tag ty then
            match subscript c "text" with
            | Raise e => Raise e
            | Ok t =>
                match text_blocks items' with
                | Ok ts => Ok (t :: ts)
                | Raise e => Raise e
                end
            end
          else text_blocks items'
      end
  end.

(** ["".join(values)]: every value has to be a [str]. *)
Fixpoint join_values (values : list json) : result string :=
  match values with
  | [] => Ok ""
  | JStr s :: values' =>
      match join_values values' with
      | Ok rest => Ok (s +:+ rest)
      | Raise e => Raise e
      end
  | _ :: _ => Raise (TypeError "sequence item: expected str instance")
  end.

(** The expression that computes [text_out] from [data]. *)
Definition extract_text (data : json) : result string :=
  match get_content data with
  | Raise e => Raise e
  | Ok content =>
      match iter_items content with
      | Raise e => Raise e
      | Ok items =>
          match text_blocks items with
          | Raise e => Raise e
          | Ok values => join_values values
          end
      end
  end.

(** ** The response normalizer *)

Definition newline : ascii := ascii_of_nat 10.

(** [$] under [re.MULTILINE]: the end of the text, or just before a newline. *)
Definition at_eol (s : string) : bool :=
  match s with
  | "" => true
  | String c _ => Ascii.eqb c newline
  end.

Definition fence_open : string := "```json".
Definition fence : string := "```".

(** The left-to-right scan of
    [re.sub(r"^```json|```$", "", s, flags=re.MULTILINE)].  [bol] says
    whether the position is the start of the text or follows a newline
    (where [^] matches); [skip] counts the characters of a match still to be
    dropped.  A match holds no newline, so [^] never matches inside or right
    after one. *)
Fixpoint fence_loop (bol : bool) (skip : nat) (s : string) : string :=
  match s with
  | "" => ""
  | String c s' =>
      match skip with
      | S k => fence_loop false k s'
      | 0 =>
          if bol && PyStr.startswith fence_open s
          then fence_loop false (String.length fence_open - 1) s'
          else if PyStr.startswith fence s
                  && at_eol (PyStr.drop (String.length fence) s)
          then fence_loop false (String.length fence - 1) s'
          else String c (fence_loop (Ascii.eqb c newline) 0 s')
      end
  end.

Definition re_sub_fences (s : string) : string := fence_loop true 0 s.

(** [clean_text] of [analyze_with_bedrock] *)
Definition clean_text (text_out : string) : string :=
  PyStr.strip (re_sub_fences (PyStr.strip text_out)).

(** The dictionary built in the [except] branch. *)
Definition fallback (clean pillar : string) : json :=
  JDict [("issues",
          JList [JDict [("description", JStr clean);
                        ("severity", JStr "UNKNOWN");
                        ("recommendation", JStr "Check manually");
                        ("pillar", JStr pillar)]])].

(** [try: body except Exception: handler] *)
Definition try_except {A} (body : result A) (handler : exn -> result A)
  : result A :=
  match body with
  | Ok a => Ok a
  | Raise e => handler e
  end.

(** ** What the program takes from its environment *)

(** The request passed to [client.invoke_model]: the model identifier and
    the fields of the serialized body. *)
Record request : Type := mkRequest {
  modelId : string;
  anthropic_version : string;
  max_tokens : Z;
  prompt : string
}.

(** The library and service behaviour the program relies on:
    [json.loads]; the remote call, which answers a request given the
    requests made before it, with the decoded body of the response or an
    exception; and [str(e)]. *)
Class Runtime : Type := {
  json_loads : string -> result json;
  invoke_model : list request -> request -> result string;
  exn_str : exn -> string
}.

(** The state a run threads through: the calls of [analyze_with_bedrock]
    made so far, as (text, pillar) pairs, and the requests sent to the
    service, both oldest first. *)
Record world : Type := mkWorld {
  invocations : list (string * string);
  requests : list request
}.

Definition initial_world : world := mkWorld [] [].

Definition log_invocation (text pillar : string) (w : world) : world :=
  mkWorld (invocations w ++ [(text, pillar)]) (requests w).

Definition log_request (r : request) (w : world) : world :=
  mkWorld (invocations w) (requests w ++ [r]).

(** ** The analysis invoker and the orchestrating loop *)

(** A FileReport maps a pillar to its outcomes, the AnalysisReport a file
    name to its FileReport. *)
Abbreviation file_report := (gmap string (list json)).
Abbreviation analysis_report := (gmap string (gmap string (list json))).

(** The [pillars] list of [main]. *)
Definition pillars : list string :=
  ["Operational Excellence"; "Security"; "Reliability";
   "Performance Efficiency"; "Cost Optimization"; "Sustainability"].

(** The literal [2000] in [len(content) > 2000]. *)
Definition chunk_threshold : nat := 2000.

Section Program.
Context `{Runtime}.

(** Lines 52 to 60: fence stripping, the parse attempt and its fallback. *)
Definition normalize (text_out pillar : string) : result json :=
  let clean := clean_text text_out in
  try_except (json_loads clean) (fun _ => Ok (fallback clean pillar)).

(** [analyze_with_bedrock(client, inference_profile_arn, text, pillar)].
    Nothing in it catches what [load_prompt], the remote call, the decoding
    of the reply or the extraction of its text raise. *)
Definition analyze_with_bedrock (fs : gmap string file) (arn text pillar : string)
  (w : world) : result json * world :=
  let w0 := log_invocation text pillar w in
  match load_prompt fs pillar text with
  | Raise e => (Raise e, w0)
  | Ok p =>
      let req := mkRequest arn "bedrock-2023-05-31" 4000 p in
      let w1 := log_request req w0 in
      match invoke_model (requests w0) req with
      | Raise e => (Raise e, w1)
      | Ok raw =>
          match json_loads raw with
          | Raise e => (Raise e, w1)
          | Ok data =>
              match extract_text data with
              | Raise e => (Raise e, w1)
              | Ok text_out => (normalize text_out pillar, w1)
              end
          end
      end
  end.

(** [{"error": str(e)}] *)
Definition error_outcome (e : exn) : json :=
  JDict [("error", JStr (exn_str e))].

(** What one unit contributes to a pillar's list: the invoker's value, or
    the error placeholder of the [except] clause around the call. *)
Definition outcome_of (r : result json) : json :=
  match r with
  | Ok output => output
  | Raise e => error_outcome e
  end.

(** The loop over [enumerate(chunks)], with its inner [try]. *)
Fixpoint analyze_chunks (fs : gmap string file) (arn pillar : string)
  (chunks : list string) (w : world) : list json * world :=
  match chunks with
  | [] => ([], w)
  | chunk :: chunks' =>
      let '(r, w1) := analyze_with_bedrock fs arn chunk pillar w in
      let '(outs, w2) := analyze_chunks fs arn pillar chunks' w1 in
      (outcome_of r :: outs, w2)
  end.

(** The body of the outer [try] for one pillar: the list to be stored under
    the pillar, or the exception that reaches the outer [except]. *)
Definition pillar_try (fs : gmap string file) (arn content pillar : string)
  (w : world) : result (list json) * world :=
  if Nat.ltb chunk_threshold (String.length content) then
    match chunk_text content default_max_chars with
    | Raise e => (Raise e, w)
    | Ok chunks =>
        let '(outs, w') := analyze_chunks fs arn pillar chunks w in
        (Ok outs, w')
    end
  else
    let '(r, w') := analyze_with_bedrock fs arn content pillar w in
    match r with
    | Ok output => (Ok [output], w')
    | Raise e => (Raise e, w')
    end.

(** The value assigned to [file_results[pillar]]. *)
Definition pillar_results (fs : gmap string file) (arn content pillar : string)
  (w : world) : list json * world :=
  let '(r, w') := pillar_try fs arn content pillar w in
  match r with
  | Ok outs => (outs, w')
  | Raise e => ([error_outcome e], w')
  end.

(** [for pillar in pillars: ...] *)
Fixpoint pillar_loop (fs : gmap string file) (arn content : string)
  (ps : list string) (file_results : file_report) (w : world)
  : file_report * world :=
  match ps with
  | [] => (file_results, w)
  | pillar :: ps' =>
      let '(outs, w') := pillar_results fs arn content pillar w in
      pillar_loop fs arn content ps' (<[pillar := outs]> file_results) w'
  end.

(** [for file in files: ...]: a name that does not end in [.tf] and a file
    that cannot be read are passed over. *)
Fixpoint file_loop (fs : gmap string file) (arn root : string)
  (files : list string) (results : analysis_report) (w : world)
  : analysis_report * world :=
  match files with
  | [] => (results, w)
  | file :: files' =>
      if PyStr.endswith ".tf" file then
        match read_file fs (PyStr.path_join root file) with
        | Raise _ => file_loop fs arn root files' results w
        | Ok content =>
            let '(file_results, w') := pillar_loop fs arn content pillars ∅ w in
            file_loop fs arn root files' (<[file := file_results]> results) w'
        end
      else file_loop fs arn root files' results w
  end.

(** [for root, _, files in os.walk(tf_dir): ...] *)
Fixpoint walk_loop (fs : gmap string file) (arn : string)
  (walk : list (string * list string * list string))
  (results : analysis_report) (w : world) : analysis_report * world :=
  match walk with
  | [] => (results, w)
  | (root, _, files) :: walk' =>
      let '(results', w') := file_loop fs arn root files results w in
      walk_loop fs arn walk' results' w'
  end.

(** [main], from the test on [tf_dir] to the report that is written out.
    [tree] is what [os.walk(tf_dir)] yields, or [None] when [tf_dir] does not
    exist, in which case [main] returns before any analysis.  The repository
    set-up, the console output and the name of the output file are left
    out. *)
Definition main (fs : gmap string file) (arn : string)
  (tree : option (list (string * list string * list string)))
  : option analysis_report * world :=
  match tree with
  | None => (None, initial_world)
  | Some walk =>
      let '(results, w) := walk_loop fs arn walk ∅ initial_world in
      (Some results, w)
  end.

End Program.

(** ** A concrete runtime

    A reading of [json.loads] after CPython's decoder, for texts whose code
    points stay below 256, so that the program can be run on concrete
    replies.  Escapes for code points from 256 on are outside this model of
    text and are reported as undecodable.  Two limits of CPython are not
    modelled: an integer of more than 4300 digits and a nesting deeper
    than the recursion limit are decoded here.  The messages of
    [JSONDecodeError] are shortened to their first words. *)

Module PyJson.

Local Open Scope char_scope.

Definition dquote : ascii := "034".
Definition backslash : ascii := "092".

Definition is_ws (c : ascii) : bool :=
  Ascii.eqb c " " || Ascii.eqb c "009" || Ascii.eqb c "010" || Ascii.eqb c "013".

Fixpoint skip_ws (s : string) : string :=
  match s with
  | String c s' => if is_ws c then skip_ws s' else s
  | EmptyString => s
  end.

Definition is_digit (c : ascii) : bool :=
  let n := nat_of_ascii c in Nat.leb 48 n && Nat.leb n 57.

(** The longest run of digits at the head of [s], and what follows it. *)
Fixpoint span_digits (s : string) : string * string :=
  match s with
  | String c s' =>
      if is_digit c then
        let '(ds, rest) := span_digits s' in (String c ds, rest)
      else (EmptyString, s)
  | EmptyString => (EmptyString, s)
  end.

Fixpoint digits_value (acc : Z) (ds : string) : Z :=
  match ds with
  | String c ds' => digits_value (10 * acc + Z.of_nat (nat_of_ascii c - 48)) ds'
  | EmptyString => acc
  end.

(** The integer part [0|[1-9][0-9]*] after an optional sign. *)
Definition int_part (s : string) : option (string * string) :=
  match s with
  | String c s' =>
      if Ascii.eqb c "0" then Some (String c EmptyString, s')
      else if is_digit c then
        let '(ds, rest) := span_digits s' in Some (String c ds, rest)
      else None
  | EmptyString => None
  end.

(** [(\.[0-9]+)?] *)
Definition frac_part (s : string) : string * string :=
  match s with
  | String c s' =>
      if Ascii.eqb c "." then
        match span_digits s' with
        | (EmptyString, _) => (EmptyString, s)
        | (ds, rest) => (String c ds, rest)
        end
      else (EmptyString, s)
  | EmptyString => (EmptyString, s)
  end.

(** [([eE][-+]?[0-9]+)?] *)
Definition exp_part (s : string) : string * string :=
  match s with
  | String e s' =>
      if Ascii.eqb e "e" || Ascii.eqb e "E" then
        let '(sign, s'') :=
          match s' with
          | String g r =>
              if Ascii.eqb g "-" || Ascii.eqb g "+"
              then (String g EmptyString, r) else (EmptyString, s')
          | EmptyString => (EmptyString, s')
          end in
        match span_digits s'' with
        | (EmptyString, _) => (EmptyString, s)
        | (ds, rest) => (String e (sign +:+ ds), rest)
        end
      else (EmptyString, s)
  | EmptyString => (EmptyString, s)
  end.

Definition parse_number (s : string) : option (json * string) :=
  let '(neg, s1) :=
    match s with
    | String c r => if Ascii.eqb c "-" then (true, r) else (false, s)
    | EmptyString => (false, s)
    end in
  match int_part s1 with
  | None => None
  | Some (ip, s2) =>
      let '(fp, s3) := frac_part s2 in
      let '(ep, s4) := exp_part s3 in
      let sign := if neg then String "-" EmptyString else EmptyString in
      match fp, ep with
      | EmptyString, EmptyString =>
          let v := digits_value 0 ip in
          Some (JInt (if neg then - v else v), s4)
      | _, _ => Some (JFloat (sign +:+ ip +:+ fp +:+ ep), s4)
      end
  end.

Definition hex_value (c : ascii) : option nat :=
  let n := nat_of_ascii c in
  if Nat.leb 48 n && Nat.leb n 57 then Some (n - 48)
  else if Nat.leb 97 n && Nat.leb n 102 then Some (n - 87)
  else if Nat.leb 65 n && Nat.leb n 70 then Some (n - 55)
  else None.

Definition hex4 (a b c d : ascii) : option nat :=
  match hex_value a, hex_value b, hex_value c, hex_value d with
  | Some x, Some y, Some z, Some t => Some (((x * 16 + y) * 16 + z) * 16 + t)
  | _, _, _, _ => None
  end.

Definition simple_escape (c : ascii) : option ascii :=
  if Ascii.eqb c dquote then Some dquote
  else if Ascii.eqb c backslash then Some backslash
  else if Ascii.eqb c "/" then Some "/"
  else if Ascii.eqb c "b" then Some "008"
  else if Ascii.eqb c "f" then Some "012"
  else if Ascii.eqb c "n" then Some "010"
  else if Ascii.eqb c "r" then Some "013"
  else if Ascii.eqb c "t" then Some "009"
  else None.

(** The text of a string after its opening quote, up to the closing one;
    a raw control character is refused, as the strict decoder does. *)
Fixpoint parse_string (s : string) : option (string * string) :=
  match s with
  | EmptyString => None
  | String c r =>
      if Ascii.eqb c dquote then Some (EmptyString, r)
      else if Ascii.eqb c backslash then
        match r with
        | String e r1 =>
            if Ascii.eqb e "u" then
              match r1 with
              | String h1 (String h2 (String h3 (String h4 r2))) =>
                  match hex4 h1 h2 h3 h4 with
                  | Some n =>
                      if Nat.ltb n 256 then
                        match parse_string r2 with
                        | Some (t, rest) => Some (String (ascii_of_nat n) t, rest)
                        | None => None
                        end
                      else None
                  | None => None
                  end
              | _ => None
              end
            else
              match simple_escape e with
              | Some x =>
                  match parse_string r1 with
                  | Some (t, rest) => Some (String x t, rest)
                  | None => None
                  end
              | None => None
              end
        | EmptyString => None
        end
      else if Nat.ltb (nat_of_ascii c) 32 then None
      else
        match parse_string r with
        | Some (t, rest) => Some (String c t, rest)
        | None => None
        end
  end.

(** The literals the scanner knows besides numbers, in the order it tries
    them around the number pattern. *)
Definition parse_word (word : string) (v : json) (s : string)
  : option (json * string) :=
  if PyStr.startswith word s
  then Some (v, PyStr.drop (String.length word) s) else None.

Definition first_of {A} (a b : option A) : option A :=
  match a with Some _ => a | None => b end.

Definition parse_atom (s : string) : option (json * string) :=
  first_of (parse_word "null" JNull s)
  (first_of (parse_word "true" (JBool true) s)
  (first_of (parse_word "false" (JBool false) s)
  (first_of (parse_number s)
  (first_of (parse_word "NaN" (JFloat "NaN") s)
  (first_of (parse_word "Infinity" (JFloat "Infinity") s)
            (parse_word "-Infinity" (JFloat "-Infinity") s)))))).

(** One value at the head of [s]; [parse_items] reads the rest of a list
    after its first bracket, [parse_members] the rest of an object.  [fuel]
    bounds the number of nested calls. *)
Fixpoint parse_value (fuel : nat) (s : string) : option (json * string) :=
  match fuel with
  | 0 => None
  | S f =>
      match s with
      | EmptyString => None
      | String c r =>
          if Ascii.eqb c dquote then
            match parse_string r with
            | Some (t, rest) => Some (JStr t, rest)
            | None => None
            end
          else if Ascii.eqb c "{" then
            match skip_ws r with
            | String c1 r1 =>
                if Ascii.eqb c1 "}" then Some (JDict [], r1)
                else parse_members f (String c1 r1) []
            | EmptyString => None
            end
          else if Ascii.eqb c "[" then
            match skip_ws r with
            | String c1 r1 =>
                if Ascii.eqb c1 "]" then Some (JList [], r1)
                else parse_items f (String c1 r1) []
            | EmptyString => None
            end
          else parse_atom s
      end
  end
with parse_items (fuel : nat) (s : string) (acc : list json)
  : option (json * string) :=
  match fuel with
  | 0 => None
  | S f =>
      match parse_value f s with
      | None => None
      | Some (v, r) =>
          match skip_ws r with
          | String c r1 =>
              if Ascii.eqb c "," then parse_items f (skip_ws r1) (acc ++ [v])
              else if Ascii.eqb c "]" then Some (JList (acc ++ [v]), r1)
              else None
          | EmptyString => None
          end
      end
  end
with parse_members (fuel : nat) (s : string) (acc : list (string * json))
  : option (json * string) :=
  match fuel with
  | 0 => None
  | S f =>
      match s with
      | String q r =>
          if Ascii.eqb q dquote then
            match parse_string r with
            | None => None
            | Some (k, r1) =>
                match skip_ws r1 with
                | String c r2 =>
                    if Ascii.eqb c ":" then
                      match parse_value f (skip_ws r2) with
                      | None => None
                      | Some (v, r3) =>
                          match skip_ws r3 with
                          | String d r4 =>
                              if Ascii.eqb d ","
                              then parse_members f (skip_ws r4) (dict_set acc k v)
                              else if Ascii.eqb d "}"
                              then Some (JDict (dict_set acc k v), r4)
                              else None
                          | EmptyString => None
                          end
                      end
                    else None
                | EmptyString => None
                end
            end
          else None
      | EmptyString => None
      end
  end.

(** [json.loads(s)]: one value between optional white space, and nothing
    after it. *)
Definition loads (s : string) : result json :=
  match parse_value (2 * String.length s + 2) (skip_ws s) with
  | None => Raise (JSONDecodeError "Expecting value")
  | Some (v, rest) =>
      match skip_ws rest with
      | EmptyString => Ok v
      | String _ _ => Raise (JSONDecodeError "Extra data")
      end
  end.

End PyJson.

(** A rendering of [str(e)] for the exceptions of the model. *)
Definition py_exn_str (e : exn) : string :=
  match e with
  | FileNotFoundError path =>
      "[Errno 2] No such file or directory: '" +:+ path +:+ "'"
  | KeyError key => "'" +:+ key +:+ "'"
  | OSError msg | ValueError msg | JSONDecodeError msg | TypeError msg
  | AttributeError msg | ClientError msg => msg
  end.

(** A runtime whose service gives the same answer to every request. *)
Definition fixed_runtime (answer : result string) : Runtime :=
  {| json_loads := PyJson.loads;
     invoke_model := fun _ _ => answer;
     exn_str := py_exn_str |}.

(** A double quote, for building JSON texts. *)
Definition dq : string := String PyJson.dquote "".

Definition nl : string := String newline "".

(** ** Notions the statements below are phrased with *)

(** The normalized form of a category name as the specification words it:
    every character lowercased, every space turned into an underscore. *)
Definition normalize_char (c : ascii) : ascii :=
  if Ascii.eqb c " " then "_"%char else PyStr.lower_char c.

Fixpoint map_chars (f : ascii -> ascii) (s : string) : string :=
  match s with
  | "" => ""
  | String c s' => String (f c) (map_chars f s')
  end.

Definition normalized_name (pillar : string) : string :=
  map_chars normalize_char pillar.

(** [old] occurs in [s] at index [i]. *)
Definition occurs_at (old s : string) (i : nat) : Prop :=
  PyStr.startswith old (PyStr.drop i s) = true.

(** The leftmost occurrence of [old] in [s] is at index [n]. *)
Definition first_occurrence (old s : string) (n : nat) : Prop :=
  occurs_at old s n /\ forall i, i < n -> ~ occurs_at old s i.

(** [prompt] is [template] with the subject text put in place of one
    occurrence of the placeholder, the rest of the template kept as it is. *)
Definition substituted_once (template code prompt : string) : Prop :=
  exists pre post : string,
    template = pre +:+ placeholder +:+ post
    /\ prompt = pre +:+ code +:+ post.

(** A template store with one template, for the Security pillar. *)
Definition security_store (template : string) : gmap string file :=
  {[ "prompts/security.txt" := Readable template ]}.

(** The envelope the specification expects from the normalizer: an object
    whose [issues] entry is a list of issues, each with the four fields. *)
Definition has_key (d : list (string * json)) (k : string) : bool :=
  match dict_get d k with Some _ => true | None => false end.

Definition is_issue (v : json) : bool :=
  match v with
  | JDict d =>
      has_key d "description" && has_key d "severity"
      && has_key d "recommendation" && has_key d "pillar"
  | _ => false
  end.

Definition is_envelope (v : json) : bool :=
  match v with
  | JDict d =>
      match dict_get d "issues" with
      | Some (JList issues) => forallb is_issue issues
      | _ => false
      end
  | _ => false
  end.

Definition backtick : ascii := "`"%char.

(** No backtick occurs in [s]. *)
Fixpoint no_backtick (s : string) : bool :=
  match s with
  | "" => true
  | String c s' => negb (Ascii.eqb c backtick) && no_backtick s'
  end.

(** Whether the position after [s] starts a line, given whether the
    position before it did. *)
Fixpoint bol_after (bol : bool) (s : string) : bool :=
  match s with
  | "" => bol
  | String c s' => bol_after (Ascii.eqb c newline) s'
  end.

(** Only white space occurs in [s]. *)
Fixpoint all_space (s : string) : bool :=
  match s with
  | "" => true
  | String c s' => PyStr.is_space c && all_space s'
  end.

(** The reply of the specification's example: the object with an empty
    [issues] list between a [json] fence and a closing fence. *)
Definition issues_text : string := "{" +:+ dq +:+ "issues" +:+ dq +:+ ":[]}".

Definition fenced_reply : string :=
  fence_open +:+ nl +:+ issues_text +:+ nl +:+ fence.

(** The chunks [main] cuts a long file into: the result of
    [chunk_text(content)], which never raises with the default size. *)
Definition chunks_of (content : string) : list string :=
  match chunk_text content default_max_chars with
  | Ok chunks => chunks
  | Raise _ => []
  end.

(** The (text, pillar) pairs of one call of the invoker per chunk. *)
Definition calls_for (pillar : string) (chunks : list string)
  : list (string * string) :=
  map (fun chunk => (chunk, pillar)) chunks.

(** A runtime whose service fails on the first request of a run, with
    [failure], and answers [answer] afterwards. *)
Definition flaky_runtime (failure : exn) (answer : string) : Runtime :=
  {| json_loads := PyJson.loads;
     invoke_model := fun history _ =>
       match history with
       | [] => Raise failure
       | _ :: _ => Ok answer
       end;
     exn_str := py_exn_str |}.

(** The body of a reply with one text block holding [text], for a [text]
    that needs no escaping. *)
Definition reply_with (text : string) : string :=
  "{" +:+ dq +:+ "content" +:+ dq +:+ ":[{" +:+ dq +:+ "type" +:+ dq +:+ ":"
  +:+ dq +:+ "text" +:+ dq +:+ "," +:+ dq +:+ "text" +:+ dq +:+ ":"
  +:+ dq +:+ text +:+ dq +:+ "}]}".

(** A runtime whose service answers every request with its prompt. *)
Definition echo_runtime : Runtime :=
  {| json_loads := PyJson.loads;
     invoke_model := fun _ req => Ok (reply_with (prompt req));
     exn_str := py_exn_str |}.

(** A text of [n] characters. *)
Fixpoint text_of_length (n : nat) : string :=
  match n with
  | 0 => ""
  | S n' => String "a" (text_of_length n')
  end.

(** The units a file is analysed in: the file as a whole up to the
    threshold, its chunks above it. *)
Definition units_of (content : string) : list string :=
  if Nat.ltb chunk_threshold (String.length content)
  then chunks_of content else [content].

(** The calls of the invoker that the analysis of one file makes: for
    every pillar in turn, one call per unit. *)
Definition calls_of_file (content : string) (ps : list string)
  : list (string * string) :=
  flat_map (fun pillar => calls_for pillar (units_of content)) ps.

(** A store with the same template for each of the six pillars. *)
Definition full_store (template : string) : gmap string file :=
  list_to_map (map (fun p => (prompt_path p, Readable template)) pillars).

(** The outcomes a report holds for a file name and a pillar, and the file
    names it has entries for. *)
Definition outcomes_at (report : option analysis_report) (file pillar : string)
  : option (list json) :=
  match report with
  | Some r =>
      match r !! file with
      | Some fr => fr !! pillar
      | None => None
      end
  | None => None
  end.

Definition reported_files (report : option analysis_report)
  : option (list string) :=
  match report with
  | Some r => Some (map fst (map_to_list r))
  | None => None
  end.

(** The placeholder stored when the template of a pillar is missing, as
    [py_exn_str] renders it. *)
Definition not_found_outcome (pillar : string) : json :=
  JDict [("error",
          JStr ("[Errno 2] No such file or directory: '"
                +:+ prompt_path pillar +:+ "'"))].

(** Two directories with a [main.tf] each, and a template for the
    Security pillar only. *)
Definition two_dirs_store : gmap string file :=
  {[ "infra/a/main.tf" := Readable "a";
     "infra/b/main.tf" := Readable "b";
     "prompts/security.txt" := Readable "{code}" ]}.

(** One file of 3500 characters, and a template for every pillar. *)
Definition long_file_store : gmap string file :=
  <[ "infra/main.tf" := Readable (text_of_length 3500) ]> (full_store "{code}").

(** ** Notions for further properties of the program *)

(** No opening brace occurs in [s]. *)
Fixpoint no_brace (s : string) : bool :=
  match s with
  | "" => true
  | String c s' => negb (Ascii.eqb c "{") && no_brace s'
  end.

(** What a well-formed content block contributes to the reply text: its
    text when its type is [text], nothing when its type is something else;
    [None] marks a block the comprehension cannot read. *)
Definition block_text (c : json) : option string :=
  match c with
  | JDict d =>
      match dict_get d "type" with
      | Some ty =>
          if is_text_tag ty then
            match dict_get d "text" with
            | Some (JStr t) => Some t
            | _ => None
            end
          else Some ""
      | None => None
      end
  | _ => None
  end.

Fixpoint blocks_text (items : list json) : option (list string) :=
  match items with
  | [] => Some []
  | c :: items' =>
      match block_text c, blocks_text items' with
      | Some t, Some ts => Some (t :: ts)
      | _, _ => None
      end
  end.

(** A text starts, or ends, with white space. *)
Definition head_space (s : string) : bool :=
  match s with
  | "" => false
  | String c _ => PyStr.is_space c
  end.

Fixpoint last_space (s : string) : bool :=
  match s with
  | "" => false
  | String c "" => PyStr.is_space c
  | String _ s' => last_space s'
  end.

(** The content of a file of the walk when [main] reads it: its name ends
    in [.tf] and [open] and [read] succeed. *)
Definition read_tf (fs : gmap string file) (root file : string) : option string :=
  if PyStr.endswith ".tf" file then
    match read_file fs (PyStr.path_join root file) with
    | Ok content => Some content
    | Raise _ => None
    end
  else None.

(** The files a walk reads, as (name, content) pairs in the order of the
    walk. *)
Fixpoint files_read_in (fs : gmap string file) (root : string)
  (files : list string) : list (string * string) :=
  match files with
  | [] => []
  | file :: files' =>
      match read_tf fs root file with
      | Some content => (file, content) :: files_read_in fs root files'
      | None => files_read_in fs root files'
      end
  end.

Fixpoint files_read (fs : gmap string file)
  (walk : list (string * list string * list string)) : list (string * string) :=
  match walk with
  | [] => []
  | (root, _, files) :: walk' => files_read_in fs root files ++ files_read fs walk'
  end.

(** The calls of the invoker a whole run makes: file after file in the
    order of the walk. *)
Definition calls_of_run (fs : gmap string file)
  (walk : list (string * list string * list string)) : list (string * string) :=
  flat_map (fun nc => calls_of_file (snd nc) pillars) (files_read fs walk).

(** The fixed parameters of a request. *)
Definition fixed_parameters (arn : string) (r : request) : Prop :=
  modelId r = arn /\ anthropic_version r = "bedrock-2023-05-31"
  /\ max_tokens r = 4000%Z.

(** No newline occurs in [s]. *)
Fixpoint no_newline (s : string) : bool :=
  match s with
  | "" => true
  | String c s' => negb (Ascii.eqb c newline) && no_newline s'
  end.

(** ** The repository set-up and the entry point *)

(** What the set-up tells apart among exceptions: the class named by its
    first [except] clause, and every other [Exception]. *)
Inductive setup_exn : Type :=
  | InvalidGitRepositoryError
  | OtherException (e : exn).

(** The operations on the host: the file system, the git client, the
    service session, and the writing of the results file ([open] for
    writing and [json.dump], as one operation). *)
Inductive host_op : Type :=
  | PathExists (path : string)
  | OpenRepo (path : string)
  | RemoteOrigin
  | Pull
  | Rmtree (path : string)
  | CloneFrom (url path : string)
  | NewSession (profile region : string)
  | NewClient (service : string)
  | WriteResults (name : string) (results : analysis_report).

(** The host, as the program meets it.  Each answer may depend on the
    operations performed so far, oldest first: whether a path exists,
    whether an operation raises, what [os.walk] yields, what the files
    hold, and what [datetime.now().strftime("%Y%m%d_%H%M%S")] gives. *)
Record host : Type := mkHost {
  path_exists : list host_op -> string -> bool;
  op_raises : list host_op -> host_op -> option setup_exn;
  walk_of : list host_op -> string -> list (string * list string * list string);
  files_of : list host_op -> gmap string file;
  timestamp : list host_op -> string
}.

(** A sequence of statements, each one operation: the first exception ends
    it.  The result is that exception, if any, and the operations performed. *)
Fixpoint perform_all (h : host) (todo : list host_op) (done : list host_op)
  : option setup_exn * list host_op :=
  match todo with
  | [] => (None, done)
  | op :: todo' =>
      match op_raises h done op with
      | Some e => (Some e, done ++ [op])
      | None => perform_all h todo' (done ++ [op])
      end
  end.

(** [setup_repository(repo_url, clone_dir)].  The [try] covers the opening
    of the repository, the look-up of its [origin] remote and the pull; an
    exception raised in the first [except] clause, or by the clone of the
    [else] branch, leaves the function. *)
Definition setup_repository (h : host) (repo_url clone_dir : string)
  (done : list host_op) : option setup_exn * list host_op :=
  let done1 := done ++ [PathExists clone_dir] in
  if path_exists h done clone_dir then
    match perform_all h [OpenRepo clone_dir; RemoteOrigin; Pull] done1 with
    | (None, done2) => (None, done2)
    | (Some InvalidGitRepositoryError, done2) =>
        perform_all h [Rmtree clone_dir; CloneFrom repo_url clone_dir] done2
    | (Some (OtherException _), done2) => (None, done2)
    end
  else perform_all h [CloneFrom repo_url clone_dir] done1.

Definition repo_url : string :=
  "https://github.com/XI4684-AdithyaShankaran/microservices-demo.git".

Definition clone_dir : string := "./cloned_repo".

(** [os.path.join(clone_dir, "infra", "aws-tf")] *)
Definition tf_dir : string :=
  PyStr.path_join (PyStr.path_join clone_dir "infra") "aws-tf".

Definition default_arn : string :=
  "arn:aws:bedrock:us-west-2:YOUR_ACCOUNT_ID:inference-profile/us.anthropic.claude-3-7-sonnet-20250219-v1:0".

(** [os.getenv("BEDROCK_INFERENCE_PROFILE_ARN", default)] *)
Definition inference_profile_arn (env : option string) : string :=
  match env with
  | Some arn => arn
  | None => default_arn
  end.

(** [f"results_{timestamp}.json"] *)
Definition results_file (h : host) (done : list host_op) : string :=
  "results_" +:+ timestamp h done +:+ ".json".

(** How a run of the script ends: the exception that ended it, if any, the
    operations performed on the host, the report the analysis built, if
    the run came to it, and the world of the analysis. *)
Record outcome : Type := mkOutcome {
  raised : option setup_exn;
  ops : list host_op;
  report : option analysis_report;
  final_world : world
}.

Definition aborted (e : setup_exn) (done : list host_op) : outcome :=
  mkOutcome (Some e) done None initial_world.

(** [main(profile)] from its first line to its last: the session and the
    client, the repository set-up, the test on [tf_dir], the analysis that
    [main] models, on what the host shows at that point, and the writing of
    the results file, which nothing guards.  The console output is left
    out. *)
Definition main_from_profile (h : host) (R : Runtime) (env : option string)
  (profile : string) (done : list host_op) : outcome :=
  match perform_all h [NewSession profile "us-west-2"; NewClient "bedrock-runtime"]
          done with
  | (Some e, done1) => aborted e done1
  | (None, done1) =>
      match setup_repository h repo_url clone_dir done1 with
      | (Some e, done2) => aborted e done2
      | (None, done2) =>
          let done3 := done2 ++ [PathExists tf_dir] in
          let tree :=
            if path_exists h done2 tf_dir
            then Some (walk_of h done3 tf_dir) else None in
          let '(report, w) :=
            main (files_of h done3) (inference_profile_arn env) tree in
          match report with
          | None => mkOutcome None done3 None w
          | Some results =>
              let write := WriteResults (results_file h done3) results in
              mkOutcome (op_raises h done3 write) (done3 ++ [write])
                        (Some results) w
          end
      end
  end.

(** The script below [if __name__ == "__main__"], after the arguments are
    parsed: with [--force-clone] an existing clone is removed first. *)
Definition script (h : host) (R : Runtime) (env : option string)
  (profile : string) (force_clone : bool) : outcome :=
  if force_clone then
    let done1 := [PathExists clone_dir] in
    if path_exists h [] clone_dir then
      match op_raises h done1 (Rmtree clone_dir) with
      | Some e => aborted e (done1 ++ [Rmtree clone_dir])
      | None => main_from_profile h R env profile (done1 ++ [Rmtree clone_dir])
      end
    else main_from_profile h R env profile done1
  else main_from_profile h R env profile [].

(** A host on which nothing raises, whose clone directory is there unless
    the last removal was not followed by a clone, and which holds one
    Terraform file. *)
Fixpoint removed (done : list host_op) (gone : bool) : bool :=
  match done with
  | [] => gone
  | Rmtree _ :: done' => removed done' true
  | CloneFrom _ _ :: done' => removed done' false
  | _ :: done' => removed done' gone
  end.

Definition quiet_host : host :=
  {| path_exists := fun done path =>
       if String.eqb path clone_dir then negb (removed done false) else true;
     op_raises := fun _ _ => None;
     walk_of := fun _ root => [(root, [], ["main.tf"])];
     files_of := fun _ =>
       {[ PyStr.path_join tf_dir "main.tf" := Readable "resource {}" ]};
     timestamp := fun _ => "20250101_000000" |}.

(** A host whose clone directory exists but is not a repository, and on
    which cloning fails. *)
Definition broken_host : host :=
  {| path_exists := fun _ _ => true;
     op_raises := fun _ op =>
       match op with
       | OpenRepo _ => Some InvalidGitRepositoryError
       | CloneFrom _ _ => Some (OtherException (OSError "clone failed"))
       | _ => None
       end;
     walk_of := fun _ root => [(root, [], ["main.tf"])];
     files_of := fun _ =>
       {[ PyStr.path_join tf_dir "main.tf" := Readable "resource {}" ]};
     timestamp := fun _ => "20250101_000000" |}.

(** A host with a repository whose pull fails. *)
Definition offline_host : host :=
  {| path_exists := fun _ _ => true;
     op_raises := fun _ op =>
       match op with
       | Pull => Some (OtherException (OSError "network unreachable"))
       | _ => None
       end;
     walk_of := fun _ root => [(root, [], ["main.tf"])];
     files_of := fun _ =>
       {[ PyStr.path_join tf_dir "main.tf" := Readable "resource {}" ]};
     timestamp := fun _ => "20250101_000000" |}.

(** A host on which everything works until the results file is to be
    written. *)
Definition full_disk_host : host :=
  {| path_exists := fun _ _ => true;
     op_raises := fun _ op =>
       match op with
       | WriteResults _ _ => Some (OtherException (OSError "No space left on device"))
       | _ => None
       end;
     walk_of := fun _ root => [(root, [], ["main.tf"])];
     files_of := fun _ =>
       {[ PyStr.path_join tf_dir "main.tf" := Readable "resource {}" ]};
     timestamp := fun _ => "20250101_000000" |}.

(** * Properties *)

(** ** Strings *)

Module PyStrFacts.
Import PyStr.

Lemma take_drop (n : nat) (s : string) : take n s +:+ drop n s = s.
Proof.
  revert n; induction s as [|c s IH]; intros [|n]; simpl; try reflexivity.
  now rewrite IH.
Qed.

Lemma length_take (n : nat) (s : string) :
  String.length (take n s) = Nat.min n (String.length s).
Proof.
  revert n; induction s as [|c s IH]; intros [|n]; simpl; try reflexivity.
  now rewrite IH.
Qed.

Lemma length_drop (n : nat) (s : string) :
  String.length (drop n s) = String.length s - n.
Proof.
  revert n; induction s as [|c s IH]; intros [|n]; simpl; try reflexivity.
  apply IH.
Qed.

Lemma drop_drop (n m : nat) (s : string) : drop n (drop m s) = drop (m + n) s.
Proof.
  revert n m; induction s as [|c s IH]; intros n [|m]; simpl; try reflexivity.
  - now destruct n.
  - apply IH.
Qed.

Lemma drop_all (n : nat) (s : string) : String.length s <= n -> drop n s = "".
Proof.
  revert n; induction s as [|c s IH]; intros [|n]; simpl; intros Hn;
    try reflexivity; try lia.
  apply IH; lia.
Qed.

Lemma take_all (n : nat) (s : string) : String.length s <= n -> take n s = s.
Proof.
  revert n; induction s as [|c s IH]; intros [|n]; simpl; intros Hn;
    try reflexivity; try lia.
  rewrite IH; [reflexivity | lia].
Qed.

Lemma length_app (s t : string) :
  String.length (s +:+ t) = String.length s + String.length t.
Proof. induction s as [|c s IH]; simpl; [reflexivity | now rewrite IH]. Qed.

Lemma app_nil_r (s : string) : s +:+ "" = s.
Proof. induction s as [|c s IH]; simpl; [reflexivity | now rewrite IH]. Qed.

Lemma app_assoc (s t u : string) : (s +:+ t) +:+ u = s +:+ (t +:+ u).
Proof. induction s as [|c s IH]; simpl; [reflexivity | now rewrite IH]. Qed.

Lemma startswith_split (p s : string) :
  startswith p s = true -> s = p +:+ drop (String.length p) s.
Proof.
  revert s; induction p as [|a p IH]; intros [|b s]; simpl; try easy.
  destruct (Ascii.eqb_spec a b) as [->|]; [|easy].
  intros Hp. f_equal. now apply IH.
Qed.

End PyStrFacts.

(** ** The chunker *)

Section Chunker.
Import PyStr PyStrFacts.

Variables (text : string) (step : nat).
Hypothesis step_pos : 0 < step.

Let stop := String.length text.

(** The indices of the range are [i], [i + step], [i + 2 * step], ... *)
Lemma range_loop_lookup (fuel i k x : nat) :
  range_loop fuel i stop step !! k = Some x -> x = i + k * step /\ x < stop.
Proof.
  revert i k; induction fuel as [|fuel IH]; intros i k; simpl; [easy|].
  destruct (Nat.ltb_spec i stop) as [Hlt|Hge]; [|easy].
  destruct k as [|k]; simpl.
  - intros [= <-]; lia.
  - intros Hk. apply IH in Hk. lia.
Qed.

(** With enough fuel the range has [ceil((stop - i) / step)] indices. *)
Lemma range_loop_length (fuel i : nat) :
  stop - i <= fuel ->
  length (range_loop fuel i stop step) = ceil_div (stop - i) step.
Proof.
  unfold ceil_div.
  revert i; induction fuel as [|fuel IH]; intros i Hfuel; simpl.
  - replace (stop - i) with 0 by lia. simpl.
    symmetry; apply Nat.div_small; lia.
  - destruct (Nat.ltb_spec i stop) as [Hlt|Hge].
    + simpl. rewrite IH by lia.
      destruct (Nat.le_gt_cases step (stop - i)) as [Hle|Hgt].
      * replace (stop - i + step - 1) with (stop - (i + step) + step - 1 + 1 * step) by lia.
        rewrite Nat.div_add by lia. lia.
      * replace (stop - (i + step)) with 0 by lia. simpl.
        rewrite (Nat.div_small (step - 1)) by lia.
        apply (Nat.div_unique _ _ 1 (stop - i - 1)); lia.
    + replace (stop - i) with 0 by lia. simpl.
      symmetry; apply Nat.div_small; lia.
Qed.

(** The fuel of [py_range] is never what ends the loop: any two counters
    that cover the distance to [stop] give the same range. *)
Lemma py_range_fuel (fuel fuel' i : nat) :
  stop - i <= fuel -> stop - i <= fuel' ->
  range_loop fuel i stop step = range_loop fuel' i stop step.
Proof.
  revert fuel' i; induction fuel as [|fuel IH]; intros [|fuel'] i H1 H2; simpl;
    try reflexivity;
    destruct (Nat.ltb_spec i stop) as [Hlt|Hge]; try reflexivity; try lia.
  f_equal. apply IH; lia.
Qed.

(** The slices taken from index [i] on put the rest of the text together. *)
Lemma join_slices (fuel i : nat) :
  stop - i <= fuel ->
  join (map (fun j => slice text j (j + step)) (range_loop fuel i stop step))
  = drop i text.
Proof.
  revert i; induction fuel as [|fuel IH]; intros i Hfuel; simpl.
  - symmetry; apply drop_all; fold stop; lia.
  - destruct (Nat.ltb_spec i stop) as [Hlt|Hge]; simpl.
    + rewrite IH by lia. unfold slice.
      replace (i + step - i) with step by lia.
      rewrite <- (drop_drop step i). apply take_drop.
    + symmetry; apply drop_all; fold stop; lia.
Qed.

End Chunker.

Lemma ceil_div_spec (a b : nat) :
  0 < b -> a <= ceil_div a b * b /\ forall n, a <= n * b -> ceil_div a b <= n.
Proof.
  intros Hb. unfold ceil_div. split.
  - pose proof (Nat.div_mod_eq (a + b - 1) b) as E.
    pose proof (Nat.mod_upper_bound (a + b - 1) b ltac:(lia)) as U.
    rewrite Nat.mul_comm. lia.
  - intros n Hn. apply Nat.lt_succ_r.
    apply Nat.Div0.div_lt_upper_bound. lia.
Qed.

Lemma map_lookup_Some {A B} (f : A -> B) (l : list A) (k : nat) (y : B) :
  map f l !! k = Some y -> exists x, l !! k = Some x /\ y = f x.
Proof.
  revert k; induction l as [|a l IH]; intros [|k]; simpl; try easy.
  - intros [= <-]. now exists a.
  - apply IH.
Qed.

Example chunk_text_seven :
  chunk_text "abcdefg" 3 = Ok ["abc"; "def"; "g"].
Proof. reflexivity. Qed.

Example chunk_text_zero_step : is_ok (chunk_text "abcdefg" 0) = false.
Proof. reflexivity. Qed.

(** C1.  For every text and every positive chunk size the chunker returns
    chunks whose concatenation is the text; chunk number [k] is the slice
    of the text that starts at [k * max_chars] (inside the text) and ends
    at most [max_chars] characters later, so the chunks are contiguous,
    disjoint and in left-to-right order; no chunk is longer than
    [max_chars]; there are [ceil(len(text) / max_chars)] chunks; and the
    empty text gives no chunk. *)
Theorem chunk_text_partition (text : string) (max_chars : Z) :
  (0 < max_chars)%Z ->
  exists chunks : list string,
    chunk_text text max_chars = Ok chunks
    /\ PyStr.join chunks = text
    /\ (forall (k : nat) (c : string), chunks !! k = Some c ->
          k * Z.to_nat max_chars < String.length text
          /\ c = PyStr.slice text (k * Z.to_nat max_chars)
                             (k * Z.to_nat max_chars + Z.to_nat max_chars))
    /\ Forall (fun c => (Z.of_nat (String.length c) <= max_chars)%Z) chunks
    /\ length chunks = ceil_div (String.length text) (Z.to_nat max_chars)
    /\ (text = "" -> chunks = []).
Proof.
  intros Hpos. unfold chunk_text.
  destruct (Z.eqb_spec max_chars 0) as [?|_]; [lia|].
  destruct (Z.ltb_spec max_chars 0) as [?|_]; [lia|].
  set (step := Z.to_nat max_chars).
  assert (Hstep : 0 < step) by (unfold step; lia).
  eexists; split; [reflexivity|]. unfold py_range.
  repeat split.
  - rewrite join_slices by (trivial; lia). reflexivity.
  - apply map_lookup_Some in H as (i & Hi & ->).
    apply range_loop_lookup in Hi; [|assumption]. fold step. lia.
  - apply map_lookup_Some in H as (i & Hi & ->).
    apply range_loop_lookup in Hi; [|assumption]. destruct Hi as [-> _]. reflexivity.
  - apply Forall_forall. intros c Hc. apply list_elem_of_In in Hc.
    apply in_map_iff in Hc as (i & <- & _). unfold PyStr.slice.
    rewrite PyStrFacts.length_take. unfold step in *. lia.
  - rewrite length_map, range_loop_length by (trivial; lia).
    now rewrite Nat.sub_0_r.
  - intros ->. reflexivity.
Qed.

Lemma chunk_text_partition_witness :
  exists chunks : list string,
    chunk_text "abcdefg" 3 = Ok chunks
    /\ PyStr.join chunks = "abcdefg"
    /\ (forall (k : nat) (c : string), chunks !! k = Some c ->
          k * Z.to_nat 3 < String.length "abcdefg"
          /\ c = PyStr.slice "abcdefg" (k * Z.to_nat 3)
                             (k * Z.to_nat 3 + Z.to_nat 3))
    /\ Forall (fun c => (Z.of_nat (String.length c) <= 3)%Z) chunks
    /\ length chunks = ceil_div (String.length "abcdefg") (Z.to_nat 3)
    /\ ("abcdefg" = "" -> chunks = []).
Proof. apply (chunk_text_partition "abcdefg" 3). lia. Defined.

(** ** The prompt loader *)

Section Replace.
Import PyStr PyStrFacts.

Variables (old new : string).
Hypothesis old_nonempty : old <> "".

(** Passing over [k] characters of a match is dropping them. *)
Lemma replace_loop_skip (k : nat) (s : string) :
  replace_loop old new k s = replace_loop old new 0 (drop k s).
Proof.
  revert s; induction k as [|k IH]; intros [|c s]; simpl; try reflexivity.
  apply IH.
Qed.

Lemma startswith_empty : startswith old "" = false.
Proof. destruct old; [contradiction | reflexivity]. Qed.

(** Up to the leftmost occurrence the text is copied, the occurrence is
    replaced, and the scan goes on right after it. *)
Lemma replace_first_occurrence (s : string) (n : nat) :
  first_occurrence old s n ->
  replace old new s
  = take n s +:+ new +:+ replace old new (drop (n + String.length old) s).
Proof.
  unfold replace, first_occurrence, occurs_at.
  revert s; induction n as [|n IH]; intros s [Hocc Hfirst].
  - destruct s as [|c s]; simpl in Hocc.
    + now rewrite startswith_empty in Hocc.
    + simpl replace_loop. rewrite Hocc, replace_loop_skip. simpl.
      destruct old as [|o old']; [contradiction|]. simpl.
      now rewrite Nat.sub_0_r.
  - destruct s as [|c s].
    + simpl in Hocc. now rewrite startswith_empty in Hocc.
    + assert (H0 : startswith old (String c s) = false).
      { specialize (Hfirst 0 ltac:(lia)). simpl in Hfirst.
        now destruct (startswith old (String c s)). }
      simpl replace_loop. rewrite H0. simpl. f_equal. apply IH.
      split; [exact Hocc|].
      intros i Hi. apply (Hfirst (S i)). lia.
Qed.

(** A text without any occurrence is returned as it is. *)
Lemma replace_no_occurrence (s : string) :
  (forall i, ~ occurs_at old s i) -> replace old new s = s.
Proof.
  unfold replace, occurs_at.
  induction s as [|c s IH]; intros Hno; [reflexivity|].
  simpl replace_loop.
  assert (H0 : startswith old (String c s) = false).
  { specialize (Hno 0). simpl in Hno. now destruct (startswith old (String c s)). }
  rewrite H0. f_equal. apply IH. intros i. apply (Hno (S i)).
Qed.

End Replace.

Lemma normalize_char_step (c : ascii) (s : string) :
  PyStr.replace_loop " " "_" 0 (String (PyStr.lower_char c) s)
  = String (normalize_char c) (PyStr.replace_loop " " "_" 0 s).
Proof. destruct c as [[] [] [] [] [] [] [] []]; reflexivity. Qed.

(** The file name is the normalized category name followed by [.txt]. *)
Lemma prompt_filename_normalized (pillar : string) :
  prompt_filename pillar = normalized_name pillar +:+ ".txt".
Proof.
  unfold prompt_filename, normalized_name, PyStr.replace. f_equal.
  induction pillar as [|c s IH]; [reflexivity|].
  cbn [PyStr.lower map_chars]. now rewrite normalize_char_step, IH.
Qed.

Lemma normalized_name_slash (pillar : string) :
  PyStr.startswith "/" (normalized_name pillar +:+ ".txt")
  = PyStr.startswith "/" pillar.
Proof.
  destruct pillar as [|c s]; [reflexivity|].
  destruct c as [[] [] [] [] [] [] [] []]; reflexivity.
Qed.

Example prompt_path_operational :
  prompt_path "Operational Excellence" = "prompts/operational_excellence.txt".
Proof. reflexivity. Qed.

Example load_prompt_one_placeholder :
  load_prompt (security_store "Review: {code}!") "Security" "x = 1"
  = Ok "Review: x = 1!".
Proof. reflexivity. Qed.

Example load_prompt_without_placeholder :
  load_prompt (security_store "Review this") "Security" "x = 1"
  = Ok "Review this".
Proof. reflexivity. Qed.

(** C7, as stated, fails on a template that holds the placeholder twice:
    both occurrences receive the subject text, so the prompt is not the
    template with a single occurrence filled in. *)
Lemma load_prompt_fills_every_placeholder :
  load_prompt (security_store "{code} and {code}") "Security" "x"
  = Ok "x and x"
  /\ ~ substituted_once "{code} and {code}" "x" "x and x".
Proof.
  split; [reflexivity|].
  intros (pre & post & Ht & Hp).
  apply (f_equal String.length) in Ht, Hp.
  rewrite !PyStrFacts.length_app in Ht, Hp. simpl in Ht, Hp. lia.
Qed.

(** C7, amended.  The template is looked up under [prompts] by the
    normalized category name followed by [.txt]; a missing file raises
    [FileNotFoundError] for that path; otherwise the prompt is the template
    with every occurrence of the placeholder replaced, scanning from the
    left: a template without the placeholder is returned unchanged, the text
    before the leftmost occurrence is kept, that occurrence becomes the
    subject text and the rest is treated in the same way, and when the rest
    holds no further occurrence the subject text has been put into that
    single occurrence. *)
Theorem load_prompt_spec (fs : gmap string file) (pillar code : string) :
  prompt_path pillar
  = PyStr.path_join "prompts" (normalized_name pillar +:+ ".txt")
  /\ (PyStr.startswith "/" pillar = false ->
      prompt_path pillar = "prompts/" +:+ normalized_name pillar +:+ ".txt")
  /\ (fs !! prompt_path pillar = None ->
      load_prompt fs pillar code = Raise (FileNotFoundError (prompt_path pillar)))
  /\ (forall template : string,
        fs !! prompt_path pillar = Some (Readable template) ->
        exists prompt : string,
          load_prompt fs pillar code = Ok prompt
          /\ ((forall i, ~ occurs_at placeholder template i) -> prompt = template)
          /\ (forall n : nat, first_occurrence placeholder template n ->
                let rest := PyStr.drop (n + String.length placeholder) template in
                prompt = PyStr.take n template +:+ code
                         +:+ PyStr.replace placeholder code rest
                /\ ((forall i, ~ occurs_at placeholder rest i) ->
                    prompt = PyStr.take n template +:+ code +:+ rest
                    /\ substituted_once template code prompt))).
Proof.
  assert (Hpath : prompt_path pillar
                  = PyStr.path_join "prompts" (normalized_name pillar +:+ ".txt")).
  { unfold prompt_path. now rewrite prompt_filename_normalized. }
  split; [exact Hpath|]. split; [|split].
  - intros Hslash. rewrite Hpath. unfold PyStr.path_join.
    now rewrite normalized_name_slash, Hslash.
  - intros Hnone. unfold load_prompt, read_file. now rewrite Hnone.
  - intros template Hsome. unfold load_prompt, read_file. rewrite Hsome.
    eexists; split; [reflexivity|]. split.
    + apply replace_no_occurrence.
    + intros n Hfirst.
      set (rest := PyStr.drop (n + String.length placeholder) template).
      assert (Heq : PyStr.replace placeholder code template
                    = PyStr.take n template +:+ code
                      +:+ PyStr.replace placeholder code rest)
        by now apply replace_first_occurrence.
      split; [exact Heq|]. intros Hrest.
      assert (Hr : PyStr.replace placeholder code rest = rest)
        by (apply replace_no_occurrence; exact Hrest).
      rewrite Hr in Heq.
      split; [exact Heq|].
      exists (PyStr.take n template), rest. split; [|exact Heq].
      destruct Hfirst as [Hocc _]. unfold occurs_at in Hocc.
      rewrite <- (PyStrFacts.take_drop n template) at 1. f_equal.
      subst rest. rewrite <- PyStrFacts.drop_drop.
      apply PyStrFacts.startswith_split, Hocc.
Qed.

Lemma load_prompt_spec_witness :
  load_prompt (security_store "Review: {code}!") "Security" "x = 1"
  = Ok "Review: x = 1!"
  /\ substituted_once "Review: {code}!" "x = 1" "Review: x = 1!".
Proof.
  destruct (load_prompt_spec (security_store "Review: {code}!") "Security" "x = 1")
    as (_ & _ & _ & H).
  destruct (H "Review: {code}!" eq_refl) as (prompt & Hload & _ & Hone).
  destruct (Hone 8) as [_ Hrest].
  - split; [reflexivity|].
    intros i Hi.
    do 8 (destruct i as [|i]; [vm_compute; discriminate|]). lia.
  - destruct Hrest as [Hp Hs].
    + intros [|[|i]]; vm_compute; discriminate.
    + rewrite Hload, Hp. split; [reflexivity|]. rewrite Hp in Hs. exact Hs.
Defined.

(** ** The response normalizer *)

Section FenceScan.
Import PyStr PyStrFacts.

(** Text without backticks is copied by the scan. *)
Lemma fence_loop_plain (b rest : string) (bol : bool) :
  no_backtick b = true ->
  fence_loop bol 0 (b +:+ rest) = b +:+ fence_loop (bol_after bol b) 0 rest.
Proof.
  revert bol; induction b as [|c b IH]; intros bol Hb; [reflexivity|].
  simpl in Hb. apply andb_prop in Hb as [Hc Hb].
  apply negb_true_iff in Hc. rewrite Ascii.eqb_sym in Hc.
  cbn [String.append fence_loop bol_after].
  unfold fence_open, fence. cbn [startswith]. unfold backtick in Hc.
  rewrite Hc, andb_false_r. cbn [andb]. now rewrite IH.
Qed.

(** At the start of a line the opening marker is dropped. *)
Lemma fence_loop_open (rest : string) :
  fence_loop true 0 (fence_open +:+ rest) = fence_loop false 0 rest.
Proof. reflexivity. Qed.

(** At the end of a line the closing marker is dropped. *)
Lemma fence_loop_close (bol : bool) (rest : string) :
  at_eol rest = true ->
  fence_loop bol 0 (fence +:+ rest) = fence_loop false 0 rest.
Proof.
  destruct rest as [|c r]; cbn [at_eol].
  - intros _. now destruct bol.
  - intros Hc. apply Ascii.eqb_eq in Hc as ->. now destruct bol.
Qed.

Lemma fence_loop_empty (bol : bool) : fence_loop bol 0 "" = "".
Proof. reflexivity. Qed.

Lemma rstrip_all_space (w : string) : all_space w = true -> rstrip w = "".
Proof.
  induction w as [|c w IH]; [reflexivity|]. simpl.
  intros [Hc Hw]%andb_prop. now rewrite IH, Hc.
Qed.

Lemma lstrip_all_space (w : string) : all_space w = true -> lstrip w = "".
Proof.
  induction w as [|c w IH]; [reflexivity|]. simpl.
  intros [Hc Hw]%andb_prop. now rewrite Hc, IH.
Qed.

Lemma rstrip_app_space (s w : string) :
  all_space w = true -> rstrip (s +:+ w) = rstrip s.
Proof.
  intros Hw. induction s as [|c s IH]; cbn [String.append].
  - now apply rstrip_all_space.
  - cbn [rstrip]. now rewrite IH.
Qed.

Lemma strip_app_space (s w : string) :
  all_space w = true -> strip (s +:+ w) = strip s.
Proof.
  intros Hw. unfold strip. induction s as [|c s IH]; cbn [String.append].
  - now rewrite lstrip_all_space.
  - cbn [lstrip]. destruct (is_space c); [exact IH|].
    now apply (rstrip_app_space (String c s)).
Qed.

Lemma strip_space_app (w s : string) :
  all_space w = true -> strip (w +:+ s) = strip s.
Proof.
  unfold strip. induction w as [|c w IH]; [reflexivity|]. simpl.
  intros [Hc Hw]%andb_prop. cbn [String.append lstrip]. rewrite Hc. now apply IH.
Qed.

(** [rstrip] keeps everything before a last character that is not white
    space. *)
Lemma rstrip_app_keep (s t : string) :
  rstrip t <> "" -> rstrip (s +:+ t) = s +:+ rstrip t.
Proof.
  intros Ht. induction s as [|c s IH]; [reflexivity|].
  cbn [String.append rstrip]. rewrite IH.
  destruct (s +:+ rstrip t) as [|c' r] eqn:E; [|reflexivity].
  destruct s; [|discriminate]. now cbn in E.
Qed.

End FenceScan.

Section Normalizer.
Import PyStr PyStrFacts.

(** A reply wrapped in the two markers is cleaned to its stripped body. *)
Lemma clean_text_fenced (body : string) :
  no_backtick body = true ->
  clean_text (fence_open +:+ body +:+ fence) = strip body.
Proof.
  intros Hb. unfold clean_text.
  assert (Hstrip : strip (fence_open +:+ body +:+ fence)
                   = fence_open +:+ body +:+ fence).
  { unfold strip. change (lstrip (fence_open +:+ body +:+ fence))
      with (fence_open +:+ body +:+ fence).
    rewrite <- app_assoc. now rewrite rstrip_app_keep. }
  rewrite Hstrip. unfold re_sub_fences.
  rewrite fence_loop_open, fence_loop_plain by exact Hb.
  rewrite <- (app_nil_r fence) at 1.
  rewrite fence_loop_close by reflexivity.
  now rewrite fence_loop_empty, app_nil_r.
Qed.

(** The markers are found line by line: an opening marker at the start of
    an inner line and a closing marker at the end of one are dropped, and
    the text around them is kept. *)
Lemma re_sub_fences_inner (pre body post : string) :
  no_backtick pre = true -> no_backtick body = true -> no_backtick post = true ->
  re_sub_fences (pre +:+ nl +:+ fence_open +:+ body +:+ fence +:+ nl +:+ post)
  = pre +:+ nl +:+ body +:+ nl +:+ post.
Proof.
  intros Hpre Hbody Hpost. unfold re_sub_fences.
  rewrite fence_loop_plain by exact Hpre.
  rewrite (fence_loop_plain nl) by reflexivity.
  change (bol_after (bol_after true pre) nl) with true.
  rewrite fence_loop_open, fence_loop_plain by exact Hbody.
  rewrite fence_loop_close by reflexivity.
  rewrite <- (app_nil_r (nl +:+ post)) at 1.
  rewrite fence_loop_plain by exact Hpost.
  now rewrite fence_loop_empty, app_nil_r.
Qed.

End Normalizer.

Example clean_text_fenced_reply : clean_text fenced_reply = issues_text.
Proof. reflexivity. Qed.

Example loads_issues_text :
  PyJson.loads issues_text = Ok (JDict [("issues", JList [])]).
Proof. reflexivity. Qed.

Example loads_plain_text : is_ok (PyJson.loads "not json at all") = false.
Proof. reflexivity. Qed.

(** C3.  When the cleaned text parses, the normalizer returns the parsed
    value as it is; a reply between an opening [json] marker and a closing
    marker is cleaned to its stripped body; the markers are looked for line
    by line, so that they are also dropped inside a longer text; and the
    fenced reply of the specification's example gives the object with an
    empty [issues] list. *)
Theorem normalize_fenced_json :
  (forall (R : Runtime) (text_out pillar : string) (v : json),
      json_loads (clean_text text_out) = Ok v ->
      normalize text_out pillar = Ok v)
  /\ (forall body : string,
        no_backtick body = true ->
        clean_text (fence_open +:+ body +:+ fence) = PyStr.strip body)
  /\ (forall pre body post : string,
        no_backtick pre = true -> no_backtick body = true ->
        no_backtick post = true ->
        re_sub_fences
          (pre +:+ nl +:+ fence_open +:+ body +:+ fence +:+ nl +:+ post)
        = pre +:+ nl +:+ body +:+ nl +:+ post)
  /\ (forall (answer : result string) (pillar : string),
        @normalize (fixed_runtime answer) fenced_reply pillar
        = Ok (JDict [("issues", JList [])])).
Proof.
  split; [|split; [|split]].
  - intros R text_out pillar v Hv. unfold normalize. now rewrite Hv.
  - apply clean_text_fenced.
  - apply re_sub_fences_inner.
  - reflexivity.
Qed.

Lemma normalize_fenced_json_witness :
  @normalize (fixed_runtime (Ok "")) fenced_reply "Security"
  = Ok (JDict [("issues", JList [])]).
Proof.
  destruct normalize_fenced_json as (Hparsed & Hclean & _ & _).
  apply Hparsed.
  change fenced_reply with (fence_open +:+ (nl +:+ issues_text +:+ nl) +:+ fence).
  rewrite Hclean by reflexivity. reflexivity.
Defined.

(** C2, as stated, fails on a reply that parses to something else than an
    envelope: the reply [42] is returned as the number 42. *)
Lemma normalize_passes_any_json :
  @normalize (fixed_runtime (Ok "")) "42" "Security" = Ok (JInt 42)
  /\ is_envelope (JInt 42) = false.
Proof. split; reflexivity. Qed.

(** C2, amended.  When the cleaned text does not parse, the normalizer
    returns exactly the single-issue envelope built from the cleaned text
    and the category, which is a well-formed envelope; and the normalizer
    never raises: it returns the parsed value when the cleaned text parses
    and that envelope when it does not. *)
Theorem normalize_fallback (R : Runtime) (text_out pillar : string) :
  (forall e : exn,
      json_loads (clean_text text_out) = Raise e ->
      normalize text_out pillar = Ok (fallback (clean_text text_out) pillar))
  /\ is_envelope (fallback (clean_text text_out) pillar) = true
  /\ (exists v : json,
        normalize text_out pillar = Ok v
        /\ (json_loads (clean_text text_out) = Ok v
            \/ (is_ok (json_loads (clean_text text_out)) = false
                /\ v = fallback (clean_text text_out) pillar))).
Proof.
  unfold normalize. split; [|split].
  - intros e He. now rewrite He.
  - reflexivity.
  - destruct (json_loads (clean_text text_out)) as [v|e]; simpl.
    + exists v. auto.
    + eexists. split; [reflexivity|]. right. split; reflexivity.
Qed.

Lemma normalize_fallback_witness :
  @normalize (fixed_runtime (Ok "")) "not json at all" "Security"
  = Ok (JDict [("issues",
                JList [JDict [("description", JStr "not json at all");
                              ("severity", JStr "UNKNOWN");
                              ("recommendation", JStr "Check manually");
                              ("pillar", JStr "Security")]])]).
Proof.
  destruct (normalize_fallback (fixed_runtime (Ok "")) "not json at all" "Security")
    as (Hfail & _ & _).
  apply (Hfail (JSONDecodeError "Expecting value")). reflexivity.
Defined.

(** ** The analysis invoker and the loop over the units of a file *)

Lemma chunk_text_default (content : string) :
  chunk_text content default_max_chars = Ok (chunks_of content).
Proof. reflexivity. Qed.

Lemma chunks_of_length (content : string) :
  length (chunks_of content) = ceil_div (String.length content) 2000.
Proof.
  unfold chunks_of, chunk_text, default_max_chars, py_range.
  change (Z.to_nat 2000) with 2000. cbn [Z.eqb Z.ltb Z.compare].
  rewrite length_map, range_loop_length by lia.
  now rewrite Nat.sub_0_r.
Qed.

Lemma chunks_of_long (content : string) :
  chunk_threshold < String.length content -> 2 <= length (chunks_of content).
Proof.
  unfold chunk_threshold. intros Hlong. rewrite chunks_of_length.
  unfold ceil_div. apply Nat.div_le_lower_bound; lia.
Qed.

Section Units.
Context {R : Runtime}.
Variables (fs : gmap string file) (arn : string).

(** Every call of the invoker is logged, whatever its outcome. *)
Lemma analyze_invocations (text pillar : string) (w : world) :
  invocations (snd (analyze_with_bedrock fs arn text pillar w))
  = invocations w ++ [(text, pillar)].
Proof.
  unfold analyze_with_bedrock.
  destruct (load_prompt fs pillar text); [|reflexivity].
  destruct (invoke_model _ _); [|reflexivity].
  destruct (json_loads _); [|reflexivity].
  destruct (extract_text _); reflexivity.
Qed.

(** Without a template the invoker raises before any request is made. *)
Lemma analyze_no_template (text pillar : string) (w : world) :
  fs !! prompt_path pillar = None ->
  analyze_with_bedrock fs arn text pillar w
  = (Raise (FileNotFoundError (prompt_path pillar)), log_invocation text pillar w).
Proof.
  intros Hnone. unfold analyze_with_bedrock, load_prompt, read_file.
  now rewrite Hnone.
Qed.

Lemma analyze_chunks_cons (pillar chunk : string) (chunks : list string)
  (w : world) :
  analyze_chunks fs arn pillar (chunk :: chunks) w
  = (outcome_of (fst (analyze_with_bedrock fs arn chunk pillar w))
       :: fst (analyze_chunks fs arn pillar chunks
                 (snd (analyze_with_bedrock fs arn chunk pillar w))),
     snd (analyze_chunks fs arn pillar chunks
            (snd (analyze_with_bedrock fs arn chunk pillar w)))).
Proof.
  cbn [analyze_chunks].
  destruct (analyze_with_bedrock fs arn chunk pillar w) as [r w1].
  cbn [fst snd].
  now destruct (analyze_chunks fs arn pillar chunks w1).
Qed.

(** One outcome per chunk. *)
Lemma analyze_chunks_length (pillar : string) (chunks : list string) (w : world) :
  length (fst (analyze_chunks fs arn pillar chunks w)) = length chunks.
Proof.
  revert w; induction chunks as [|chunk chunks IH]; intros w; [reflexivity|].
  rewrite analyze_chunks_cons. cbn [fst length]. now rewrite IH.
Qed.

(** One call of the invoker per chunk, in the order of the chunks. *)
Lemma analyze_chunks_invocations (pillar : string) (chunks : list string)
  (w : world) :
  invocations (snd (analyze_chunks fs arn pillar chunks w))
  = invocations w ++ calls_for pillar chunks.
Proof.
  revert w; induction chunks as [|chunk chunks IH]; intros w.
  - cbn. now rewrite app_nil_r.
  - rewrite analyze_chunks_cons. cbn [snd]. rewrite IH, analyze_invocations.
    now rewrite <- app_assoc.
Qed.

(** Processing a prefix of the chunks leaves the world in which the next
    chunk is analysed. *)
Lemma analyze_chunks_lookup (pillar : string) (chunks : list string)
  (w : world) (i : nat) (chunk : string) :
  chunks !! i = Some chunk ->
  fst (analyze_chunks fs arn pillar chunks w) !! i
  = Some (outcome_of (fst (analyze_with_bedrock fs arn chunk pillar
            (snd (analyze_chunks fs arn pillar (take i chunks) w))))).
Proof.
  revert w i; induction chunks as [|c chunks IH]; intros w [|i]; try easy.
  - intros [= ->]. rewrite analyze_chunks_cons. reflexivity.
  - intros Hi. rewrite analyze_chunks_cons. cbn [fst take].
    rewrite analyze_chunks_cons. cbn [snd]. now apply IH.
Qed.

(** A short file is one unit: one call on the whole content. *)
Lemma pillar_results_whole (content pillar : string) (w : world) :
  String.length content <= chunk_threshold ->
  pillar_results fs arn content pillar w
  = ([outcome_of (fst (analyze_with_bedrock fs arn content pillar w))],
     snd (analyze_with_bedrock fs arn content pillar w)).
Proof.
  intros Hle. unfold pillar_results, pillar_try.
  destruct (Nat.ltb_spec chunk_threshold (String.length content)); [lia|].
  now destruct (analyze_with_bedrock fs arn content pillar w) as [[v|e] w'].
Qed.

(** A long file is analysed chunk by chunk. *)
Lemma pillar_results_chunked (content pillar : string) (w : world) :
  chunk_threshold < String.length content ->
  pillar_results fs arn content pillar w
  = analyze_chunks fs arn pillar (chunks_of content) w.
Proof.
  intros Hlt. unfold pillar_results, pillar_try.
  destruct (Nat.ltb_spec chunk_threshold (String.length content)); [|lia].
  rewrite chunk_text_default.
  now destruct (analyze_chunks fs arn pillar (chunks_of content) w).
Qed.

End Units.

Section MissingTemplate.
Context {R : Runtime}.
Variables (fs : gmap string file) (arn pillar : string).
Hypothesis no_template : fs !! prompt_path pillar = None.

(** Without a template every chunk gets the same error placeholder and no
    request is sent. *)
Lemma analyze_chunks_no_template (chunks : list string) (w : world) :
  Forall (fun o => o = error_outcome (FileNotFoundError (prompt_path pillar)))
         (fst (analyze_chunks fs arn pillar chunks w))
  /\ requests (snd (analyze_chunks fs arn pillar chunks w)) = requests w.
Proof.
  revert w; induction chunks as [|chunk chunks IH]; intros w.
  - split; [constructor | reflexivity].
  - rewrite analyze_chunks_cons, analyze_no_template by exact no_template.
    cbn [fst snd]. destruct (IH (log_invocation chunk pillar w)) as [Hall Hreq].
    split; [constructor; [reflexivity | exact Hall] | exact Hreq].
Qed.

End MissingTemplate.

Example analyze_raises_not_found :
  @analyze_with_bedrock (fixed_runtime (Ok "")) ∅ "arn" "resource {}" "Security"
    initial_world
  = (Raise (FileNotFoundError "prompts/security.txt"),
     mkWorld [("resource {}", "Security")] []).
Proof. reflexivity. Qed.

(** C4, as stated, fails: with no template for the category the invoker
    does not return an outcome, it raises [FileNotFoundError] to its
    caller. *)
Lemma analyze_propagates_missing_template :
  is_ok (fst (@analyze_with_bedrock (fixed_runtime (Ok "")) ∅ "arn"
                "resource {}" "Security" initial_world)) = false
  /\ fst (@analyze_with_bedrock (fixed_runtime (Ok "")) ∅ "arn"
            "resource {}" "Security" initial_world)
     = Raise (FileNotFoundError "prompts/security.txt").
Proof. split; reflexivity. Qed.

(** C4, amended.  With no template for the category the invoker raises
    [FileNotFoundError] to its caller before any request is sent, and the
    orchestrator, which catches the exception where it calls the invoker,
    records the error placeholder for every unit of that category: one
    placeholder for a file analysed as a whole, one per chunk for a chunked
    file. *)
Theorem missing_template_outcome (R : Runtime) (fs : gmap string file)
  (arn text pillar : string) (w : world) :
  fs !! prompt_path pillar = None ->
  let placeholder_outcome :=
    JDict [("error", JStr (exn_str (FileNotFoundError (prompt_path pillar))))] in
  let res := pillar_results fs arn text pillar w in
  analyze_with_bedrock fs arn text pillar w
  = (Raise (FileNotFoundError (prompt_path pillar)), log_invocation text pillar w)
  /\ fst res <> []
  /\ Forall (fun o => o = placeholder_outcome) (fst res)
  /\ requests (snd res) = requests w
  /\ (String.length text <= 2000 -> fst res = [placeholder_outcome])
  /\ (2000 < String.length text -> length (fst res) = length (chunks_of text)).
Proof.
  intros Hnone placeholder_outcome res.
  split; [now apply analyze_no_template|].
  destruct (Nat.le_gt_cases (String.length text) chunk_threshold) as [Hle|Hgt].
  - assert (Hres : res = ([placeholder_outcome], log_invocation text pillar w)).
    { subst res. rewrite pillar_results_whole by exact Hle.
      now rewrite analyze_no_template. }
    rewrite Hres. cbn [fst snd]. unfold chunk_threshold in Hle.
    repeat split; try easy; try lia.
    now constructor.
  - assert (Hres : res = analyze_chunks fs arn pillar (chunks_of text) w)
      by now apply pillar_results_chunked.
    rewrite Hres.
    destruct (analyze_chunks_no_template fs arn pillar Hnone (chunks_of text) w)
      as [Hall Hreq].
    pose proof (analyze_chunks_length fs arn pillar (chunks_of text) w) as Hlen.
    pose proof (chunks_of_long text Hgt) as Hlong.
    unfold chunk_threshold in Hgt.
    repeat split; try easy; try lia.
    intros Hnil. rewrite Hnil in Hlen. cbn [length] in Hlen. lia.
Qed.

Lemma missing_template_outcome_witness :
  fst (@pillar_results (fixed_runtime (Ok "")) ∅ "arn" "resource {}" "Security"
         initial_world)
  = [JDict [("error",
             JStr "[Errno 2] No such file or directory: 'prompts/security.txt'")]].
Proof.
  destruct (missing_template_outcome (fixed_runtime (Ok "")) ∅ "arn"
              "resource {}" "Security" initial_world (lookup_empty _))
    as (_ & _ & _ & _ & Hshort & _).
  apply Hshort. vm_compute. lia.
Defined.

Example short_file_is_one_unit :
  @pillar_results (fixed_runtime (Ok (reply_with "[]")))
    (security_store "Review: {code}") "arn" "resource {}" "Security" initial_world
  = ([JList []],
     mkWorld [("resource {}", "Security")]
             [mkRequest "arn" "bedrock-2023-05-31" 4000 "Review: resource {}"]).
Proof. reflexivity. Qed.

(** C5.  A file of at most 2000 characters is analysed by one call of the
    invoker on its whole content, for whatever category, and the outcome
    of that call is stored as a one-element list; a file of 2001
    characters or more is cut by the chunker with chunk size 2000 into at
    least two chunks, which are analysed one by one. *)
Theorem threshold_units (R : Runtime) (fs : gmap string file)
  (arn content pillar : string) (w : world) :
  let call := analyze_with_bedrock fs arn content pillar w in
  let res := pillar_results fs arn content pillar w in
  (String.length content <= 2000 ->
     res = ([outcome_of (fst call)], snd call)
     /\ invocations (snd res) = invocations w ++ [(content, pillar)])
  /\ (2001 <= String.length content ->
        chunk_text content 2000 = Ok (chunks_of content)
        /\ 2 <= length (chunks_of content)
        /\ res = analyze_chunks fs arn pillar (chunks_of content) w).
Proof.
  intros call res. split.
  - intros Hle. subst res call.
    rewrite pillar_results_whole by exact Hle. split; [reflexivity|].
    cbn [snd]. apply analyze_invocations.
  - intros Hlong.
    assert (Hgt : chunk_threshold < String.length content)
      by (unfold chunk_threshold; lia).
    split; [apply chunk_text_default|].
    split; [now apply chunks_of_long|].
    now apply pillar_results_chunked.
Qed.

Lemma threshold_units_witness :
  fst (@pillar_results (fixed_runtime (Ok (reply_with "[]")))
         (security_store "Review: {code}") "arn" (text_of_length 2000)
         "Security" initial_world)
  = [JList []]
  /\ 2 <= length (chunks_of (text_of_length 2001)).
Proof.
  split.
  - destruct (threshold_units (fixed_runtime (Ok (reply_with "[]")))
                (security_store "Review: {code}") "arn" (text_of_length 2000)
                "Security" initial_world) as [Hshort _].
    destruct Hshort as [Hres _]; [vm_compute; lia|].
    rewrite Hres. vm_compute. reflexivity.
  - destruct (threshold_units (fixed_runtime (Ok ""))
                ∅ "arn" (text_of_length 2001) "Security" initial_world)
      as [_ Hlong].
    destruct Hlong as (_ & Hcount & _); [vm_compute; lia|].
    exact Hcount.
Defined.

Example failed_chunk_does_not_stop_the_next :
  fst (@pillar_results (flaky_runtime (ClientError "throttled") (reply_with "[]"))
         (security_store "Review: {code}") "arn" (text_of_length 2001)
         "Security" initial_world)
  = [JDict [("error", JStr "throttled")]; JList []].
Proof. vm_compute. reflexivity. Qed.

(** C8.  For a chunked file the orchestrator calls the invoker once per
    chunk, in the order of the chunks and each call in the world the calls
    before it left, and stores one outcome per chunk at the chunk's
    position: the value the invoker returned, or the [error] object made
    from the exception it raised; the chunks after a failed one are
    processed all the same. *)
Theorem chunked_outcomes (R : Runtime) (fs : gmap string file)
  (arn content pillar : string) (w : world) :
  2000 < String.length content ->
  let chunks := chunks_of content in
  let res := pillar_results fs arn content pillar w in
  chunk_text content default_max_chars = Ok chunks
  /\ length (fst res) = length chunks
  /\ invocations (snd res) = invocations w ++ calls_for pillar chunks
  /\ (forall (i : nat) (chunk : string),
        chunks !! i = Some chunk ->
        let before := snd (analyze_chunks fs arn pillar (take i chunks) w) in
        let call := fst (analyze_with_bedrock fs arn chunk pillar before) in
        (forall output : json, call = Ok output -> fst res !! i = Some output)
        /\ (forall e : exn, call = Raise e ->
              fst res !! i = Some (JDict [("error", JStr (exn_str e))]))).
Proof.
  intros Hlong chunks res.
  assert (Hres : res = analyze_chunks fs arn pillar chunks w)
    by (apply pillar_results_chunked; unfold chunk_threshold; lia).
  rewrite Hres. split; [apply chunk_text_default|].
  split; [apply analyze_chunks_length|].
  split; [apply analyze_chunks_invocations|].
  intros i chunk Hi before call.
  rewrite (analyze_chunks_lookup fs arn pillar chunks w i chunk Hi).
  fold before. fold call. split.
  - intros output ->. reflexivity.
  - intros e ->. reflexivity.
Qed.

Lemma chunked_outcomes_witness :
  let R := flaky_runtime (ClientError "throttled") (reply_with "[]") in
  let res := @pillar_results R (security_store "Review: {code}") "arn"
               (text_of_length 2001) "Security" initial_world in
  length (fst res) = length (chunks_of (text_of_length 2001))
  /\ fst res !! 0 = Some (JDict [("error", JStr "throttled")]).
Proof.
  intros R res.
  destruct (chunked_outcomes R (security_store "Review: {code}") "arn"
              (text_of_length 2001) "Security" initial_world)
    as (_ & Hlen & _ & Hat); [vm_compute; lia|].
  split; [exact Hlen|].
  destruct (Hat 0 (text_of_length 2000)) as [_ Herr]; [vm_compute; reflexivity|].
  apply (Herr (ClientError "throttled")). vm_compute. reflexivity.
Defined.

(** ** The loops over pillars, files and directories *)

Lemma pillars_NoDup : NoDup pillars.
Proof. apply (bool_decide_unpack _). vm_compute. reflexivity. Qed.

Lemma units_of_nonempty (content : string) : units_of content <> [].
Proof.
  unfold units_of.
  destruct (Nat.ltb_spec chunk_threshold (String.length content)) as [Hlt|_];
    [|discriminate].
  pose proof (chunks_of_long content Hlt) as Hlen.
  intros Hnil. rewrite Hnil in Hlen. cbn [length] in Hlen. lia.
Qed.

Section Loops.
Context {R : Runtime}.
Variables (fs : gmap string file) (arn : string).

(** Whole or chunked, a pillar's list is made by the loop over the units. *)
Lemma pillar_results_units (content pillar : string) (w : world) :
  pillar_results fs arn content pillar w
  = analyze_chunks fs arn pillar (units_of content) w.
Proof.
  unfold units_of.
  destruct (Nat.ltb_spec chunk_threshold (String.length content)) as [Hlt|Hle].
  - now apply pillar_results_chunked.
  - rewrite pillar_results_whole by exact Hle.
    now rewrite analyze_chunks_cons.
Qed.

Lemma pillar_loop_cons (content pillar : string) (ps : list string)
  (file_results : file_report) (w : world) :
  pillar_loop fs arn content (pillar :: ps) file_results w
  = pillar_loop fs arn content ps
      (<[pillar := fst (pillar_results fs arn content pillar w)]> file_results)
      (snd (pillar_results fs arn content pillar w)).
Proof.
  cbn [pillar_loop]. now destruct (pillar_results fs arn content pillar w).
Qed.

(** The loop stores an entry for every pillar it runs over. *)
Lemma pillar_loop_dom (content : string) (ps : list string)
  (file_results : file_report) (w : world) :
  dom (fst (pillar_loop fs arn content ps file_results w))
  = dom file_results ∪ list_to_set ps.
Proof.
  revert file_results w; induction ps as [|p ps IH]; intros file_results w.
  - cbn [pillar_loop fst list_to_set]. now rewrite union_empty_r_L.
  - rewrite pillar_loop_cons, IH, dom_insert_L, list_to_set_cons.
    apply set_eq. intros x. rewrite !elem_of_union. tauto.
Qed.

Lemma pillar_loop_other (content p : string) (ps : list string)
  (file_results : file_report) (w : world) :
  p ∉ ps ->
  fst (pillar_loop fs arn content ps file_results w) !! p = file_results !! p.
Proof.
  revert file_results w; induction ps as [|p' ps IH]; intros file_results w Hp.
  - reflexivity.
  - apply not_elem_of_cons in Hp as [Hne Hp].
    rewrite pillar_loop_cons, IH by exact Hp.
    apply lookup_insert_ne. congruence.
Qed.

(** The entry of a pillar is the list made for it in the world the
    pillars before it left. *)
Lemma pillar_loop_lookup (content p : string) (ps : list string) (k : nat)
  (file_results : file_report) (w : world) :
  NoDup ps -> ps !! k = Some p ->
  fst (pillar_loop fs arn content ps file_results w) !! p
  = Some (fst (pillar_results fs arn content p
                 (snd (pillar_loop fs arn content (take k ps) file_results w)))).
Proof.
  revert k file_results w; induction ps as [|p' ps IH];
    intros k file_results w Hnd Hk; [easy|].
  apply NoDup_cons in Hnd as [Hnotin Hnd].
  destruct k as [|k].
  - injection Hk as ->. rewrite pillar_loop_cons.
    rewrite pillar_loop_other by exact Hnotin.
    now rewrite lookup_insert_eq.
  - cbn [take]. rewrite !pillar_loop_cons. now apply IH.
Qed.

(** The calls made while a file is analysed. *)
Lemma pillar_loop_invocations (content : string) (ps : list string)
  (file_results : file_report) (w : world) :
  invocations (snd (pillar_loop fs arn content ps file_results w))
  = invocations w ++ calls_of_file content ps.
Proof.
  unfold calls_of_file.
  revert file_results w; induction ps as [|p ps IH]; intros file_results w.
  - cbn. now rewrite app_nil_r.
  - rewrite pillar_loop_cons, IH, pillar_results_units.
    rewrite analyze_chunks_invocations. cbn [flat_map].
    now rewrite <- app_assoc.
Qed.

End Loops.

Section Walk.
Context {R : Runtime}.
Variables (fs : gmap string file) (arn : string).

Lemma file_loop_read (root file content : string) (files : list string)
  (results : analysis_report) (w : world) :
  PyStr.endswith ".tf" file = true ->
  read_file fs (PyStr.path_join root file) = Ok content ->
  file_loop fs arn root (file :: files) results w
  = file_loop fs arn root files
      (<[file := fst (pillar_loop fs arn content pillars ∅ w)]> results)
      (snd (pillar_loop fs arn content pillars ∅ w)).
Proof.
  intros Htf Hread. cbn [file_loop]. rewrite Htf, Hread.
  now destruct (pillar_loop fs arn content pillars ∅ w).
Qed.

(** A file that is skipped leaves the report and the world as they are. *)
Lemma file_loop_skip (root file : string) (files : list string)
  (results : analysis_report) (w : world) :
  PyStr.endswith ".tf" file = false
  \/ is_ok (read_file fs (PyStr.path_join root file)) = false ->
  file_loop fs arn root (file :: files) results w
  = file_loop fs arn root files results w.
Proof.
  intros Hskip. cbn [file_loop].
  destruct (PyStr.endswith ".tf" file); [|reflexivity].
  destruct (read_file fs (PyStr.path_join root file)); [|reflexivity].
  now destruct Hskip.
Qed.

(** Each file of a directory meets one of the two cases. *)
Lemma file_loop_cases (root file : string) :
  (exists content, PyStr.endswith ".tf" file = true
                   /\ read_file fs (PyStr.path_join root file) = Ok content)
  \/ (PyStr.endswith ".tf" file = false
      \/ is_ok (read_file fs (PyStr.path_join root file)) = false).
Proof.
  destruct (PyStr.endswith ".tf" file); [|now right; left].
  destruct (read_file fs (PyStr.path_join root file)) as [content|e].
  - left. now exists content.
  - right. now right.
Qed.

Lemma file_loop_app (root : string) (files1 files2 : list string)
  (results : analysis_report) (w : world) :
  file_loop fs arn root (files1 ++ files2) results w
  = file_loop fs arn root files2
      (fst (file_loop fs arn root files1 results w))
      (snd (file_loop fs arn root files1 results w)).
Proof.
  revert results w; induction files1 as [|file files1 IH]; intros results w.
  - reflexivity.
  - rewrite <- app_comm_cons.
    destruct (file_loop_cases root file) as [(content & Htf & Hread)|Hskip].
    + rewrite !(file_loop_read root file content) by assumption. apply IH.
    + rewrite !file_loop_skip by assumption. apply IH.
Qed.

Lemma walk_loop_cons (root : string) (dirs files : list string)
  (walk : list (string * list string * list string))
  (results : analysis_report) (w : world) :
  walk_loop fs arn ((root, dirs, files) :: walk) results w
  = walk_loop fs arn walk
      (fst (file_loop fs arn root files results w))
      (snd (file_loop fs arn root files results w)).
Proof.
  cbn [walk_loop]. now destruct (file_loop fs arn root files results w).
Qed.

Lemma walk_loop_app (walk1 walk2 : list (string * list string * list string))
  (results : analysis_report) (w : world) :
  walk_loop fs arn (walk1 ++ walk2) results w
  = walk_loop fs arn walk2
      (fst (walk_loop fs arn walk1 results w))
      (snd (walk_loop fs arn walk1 results w)).
Proof.
  revert results w; induction walk1 as [|[[root dirs] files] walk1 IH];
    intros results w; [reflexivity|].
  rewrite <- app_comm_cons, !walk_loop_cons. apply IH.
Qed.

Lemma main_walk (walk : list (string * list string * list string)) :
  main fs arn (Some walk)
  = (Some (fst (walk_loop fs arn walk ∅ initial_world)),
     snd (walk_loop fs arn walk ∅ initial_world)).
Proof.
  unfold main. now destruct (walk_loop fs arn walk ∅ initial_world).
Qed.

(** An entry is untouched by files of other names and by files that are
    not read. *)
Lemma file_loop_keep (root name : string) (files : list string)
  (results : analysis_report) (w : world) :
  (name ∈ files -> is_ok (read_file fs (PyStr.path_join root name)) = false) ->
  fst (file_loop fs arn root files results w) !! name = results !! name.
Proof.
  revert results w; induction files as [|file files IH]; intros results w Hname.
  - reflexivity.
  - assert (Hrest : name ∈ files ->
                    is_ok (read_file fs (PyStr.path_join root name)) = false)
      by (intros Hin; apply Hname; now right).
    destruct (file_loop_cases root file) as [(content & Htf & Hread)|Hskip].
    + rewrite (file_loop_read root file content) by assumption.
      rewrite IH by exact Hrest. apply lookup_insert_ne.
      intros ->. rewrite Hread in Hname.
      discriminate Hname. now left.
    + rewrite file_loop_skip by assumption. now apply IH.
Qed.

Lemma walk_loop_keep (name : string)
  (walk : list (string * list string * list string))
  (results : analysis_report) (w : world) :
  (forall root dirs files, (root, dirs, files) ∈ walk -> name ∈ files ->
     is_ok (read_file fs (PyStr.path_join root name)) = false) ->
  fst (walk_loop fs arn walk results w) !! name = results !! name.
Proof.
  revert results w; induction walk as [|[[root dirs] files] walk IH];
    intros results w Hname; [reflexivity|].
  rewrite walk_loop_cons, IH.
  - apply file_loop_keep. apply (Hname root dirs files). now left.
  - intros root' dirs' files' Hin. apply (Hname root' dirs' files'). now right.
Qed.

End Walk.

(** ** What a run reads *)

Section Run.
Context {R : Runtime}.
Variables (fs : gmap string file) (arn : string).

Lemma read_tf_Some (root file content : string) :
  read_tf fs root file = Some content
  <-> PyStr.endswith ".tf" file = true
      /\ read_file fs (PyStr.path_join root file) = Ok content.
Proof.
  unfold read_tf. destruct (PyStr.endswith ".tf" file).
  - destruct (read_file fs (PyStr.path_join root file)).
    + split; [intros [= ->]; now split | intros [_ [= ->]]; reflexivity].
    + split; [discriminate | intros [_ [=]]].
  - split; [discriminate | intros [[=] _]].
Qed.

Lemma read_tf_None (root file : string) :
  read_tf fs root file = None
  <-> PyStr.endswith ".tf" file = false
      \/ is_ok (read_file fs (PyStr.path_join root file)) = false.
Proof.
  unfold read_tf. destruct (PyStr.endswith ".tf" file).
  - destruct (read_file fs (PyStr.path_join root file)).
    + split; [discriminate | intros [[=]|[=]]].
    + split; [now right | reflexivity].
  - split; [now left | reflexivity].
Qed.

(** One round of the loop over the files of a directory. *)
Lemma file_loop_step (root file : string) (files : list string)
  (results : analysis_report) (w : world) :
  file_loop fs arn root (file :: files) results w
  = match read_tf fs root file with
    | Some content =>
        file_loop fs arn root files
          (<[file := fst (pillar_loop fs arn content pillars ∅ w)]> results)
          (snd (pillar_loop fs arn content pillars ∅ w))
    | None => file_loop fs arn root files results w
    end.
Proof.
  destruct (read_tf fs root file) as [content|] eqn:Hread.
  - apply read_tf_Some in Hread as [Htf Hread]. now apply file_loop_read.
  - apply read_tf_None in Hread. now apply file_loop_skip.
Qed.

Lemma file_loop_invocations (root : string) (files : list string)
  (results : analysis_report) (w : world) :
  invocations (snd (file_loop fs arn root files results w))
  = invocations w
    ++ flat_map (fun nc => calls_of_file (snd nc) pillars)
                (files_read_in fs root files).
Proof.
  revert results w; induction files as [|file files IH]; intros results w.
  - cbn. now rewrite app_nil_r.
  - rewrite file_loop_step. cbn [files_read_in].
    destruct (read_tf fs root file) as [content|]; [|apply IH].
    rewrite IH, pillar_loop_invocations. cbn [flat_map snd].
    now rewrite <- app_assoc.
Qed.

Lemma walk_loop_invocations (walk : list (string * list string * list string))
  (results : analysis_report) (w : world) :
  invocations (snd (walk_loop fs arn walk results w))
  = invocations w ++ calls_of_run fs walk.
Proof.
  unfold calls_of_run.
  revert results w; induction walk as [|[[root dirs] files] walk IH];
    intros results w.
  - cbn. now rewrite app_nil_r.
  - rewrite walk_loop_cons, IH, file_loop_invocations. cbn [files_read].
    now rewrite flat_map_app, <- app_assoc.
Qed.

Lemma file_loop_dom (root : string) (files : list string)
  (results : analysis_report) (w : world) :
  dom (fst (file_loop fs arn root files results w))
  = dom results ∪ list_to_set (map fst (files_read_in fs root files)).
Proof.
  revert results w; induction files as [|file files IH]; intros results w.
  - cbn [file_loop fst files_read_in map list_to_set]. now rewrite union_empty_r_L.
  - rewrite file_loop_step. cbn [files_read_in].
    destruct (read_tf fs root file) as [content|]; [|apply IH].
    rewrite IH, dom_insert_L. cbn [map fst]. rewrite list_to_set_cons.
    apply set_eq. intros x. rewrite !elem_of_union. tauto.
Qed.

Lemma walk_loop_dom (walk : list (string * list string * list string))
  (results : analysis_report) (w : world) :
  dom (fst (walk_loop fs arn walk results w))
  = dom results ∪ list_to_set (map fst (files_read fs walk)).
Proof.
  revert results w; induction walk as [|[[root dirs] files] walk IH];
    intros results w.
  - cbn [walk_loop fst files_read map list_to_set]. now rewrite union_empty_r_L.
  - rewrite walk_loop_cons, IH, file_loop_dom. cbn [files_read].
    rewrite map_app, list_to_set_app_L.
    apply set_eq. intros x. rewrite !elem_of_union. tauto.
Qed.

End Run.


(** ** The report of a run *)

Example unanalysable_file_is_still_reported :
  let report :=
    fst (@main (fixed_runtime (Ok ""))
           {[ "infra/main.tf" := Readable "resource {}" ]} "arn"
           (Some [("infra", [], ["main.tf"; "notes.md"; "gone.tf"])])) in
  reported_files report = Some ["main.tf"]
  /\ map (outcomes_at report "main.tf") pillars
     = map (fun p => Some [not_found_outcome p]) pillars.
Proof. vm_compute. split; reflexivity. Qed.

(** C6, as stated, fails: entries are stored under the base name of the
    file, so of two read files of the same name in different directories
    only the later one has an entry.  Both files below are read; the
    report has one entry, which holds the results for the content of the
    second file and not those the first file's content gives. *)
Lemma earlier_file_loses_its_entry :
  let walk := [("infra/a", [], ["main.tf"]); ("infra/b", [], ["main.tf"])] in
  let report := fst (@main echo_runtime two_dirs_store "arn" (Some walk)) in
  files_read two_dirs_store walk = [("main.tf", "a"); ("main.tf", "b")]
  /\ reported_files report = Some ["main.tf"]
  /\ outcomes_at report "main.tf" "Security" = Some [fallback "b" "Security"]
  /\ fst (@pillar_loop echo_runtime two_dirs_store "arn" "a" pillars ∅
            initial_world) !! "Security"
     = Some [fallback "a" "Security"].
Proof. vm_compute. repeat split; reflexivity. Qed.

(** C6, amended.  The report has one entry per base name of a read file:
    its keys are the names of the files that are read, so with pairwise
    distinct names it has as many entries as files were read.  Whatever
    was walked before it, a read file that no read file of the same name
    follows has the entry under its name, made from its own content: the
    keys of the entry are exactly the six pillars, and under each pillar
    the list holds one outcome per unit of the content, in order, at least
    one, each of them the value or the [error] placeholder of the call of
    the invoker on that unit for that pillar, in the world left by
    everything analysed before; a pillar without a template holds
    placeholders only, and is not left out. *)
Theorem read_file_has_own_entry (R : Runtime) (fs : gmap string file)
  (arn : string) (walk1 walk2 : list (string * list string * list string))
  (root : string) (dirs files1 files2 : list string) (file content : string) :
  PyStr.endswith ".tf" file = true ->
  read_file fs (PyStr.path_join root file) = Ok content ->
  file ∉ files2 ->
  (forall root' dirs' files', (root', dirs', files') ∈ walk2 -> file ∈ files' ->
     is_ok (read_file fs (PyStr.path_join root' file)) = false) ->
  let walk := walk1 ++ (root, dirs, files1 ++ file :: files2) :: walk2 in
  let st1 := walk_loop fs arn walk1 ∅ initial_world in
  let before := snd (file_loop fs arn root files1 (fst st1) (snd st1)) in
  exists (report : analysis_report) (fr : file_report),
    fst (main fs arn (Some walk)) = Some report
    /\ dom report = list_to_set (map fst (files_read fs walk))
    /\ (NoDup (map fst (files_read fs walk)) ->
        size report = length (files_read fs walk))
    /\ report !! file = Some fr
    /\ dom fr = list_to_set pillars
    /\ (forall (k : nat) (p : string),
          pillars !! k = Some p ->
          let start :=
            snd (pillar_loop fs arn content (take k pillars) ∅ before) in
          exists outs : list json,
            fr !! p = Some outs
            /\ length outs = length (units_of content)
            /\ outs <> []
            /\ (forall (i : nat) (unit : string),
                  units_of content !! i = Some unit ->
                  match
                    fst (analyze_with_bedrock fs arn unit p
                           (snd (analyze_chunks fs arn p
                                   (take i (units_of content)) start)))
                  with
                  | Ok output => outs !! i = Some output
                  | Raise e => outs !! i = Some (JDict [("error", JStr (exn_str e))])
                  end)
            /\ (fs !! prompt_path p = None ->
                Forall (fun o =>
                  o = JDict [("error",
                       JStr (exn_str (FileNotFoundError (prompt_path p))))])
                  outs)).
Proof.
  intros Htf Hread Hfiles2 Hwalk2 walk st1 before.
  exists (fst (walk_loop fs arn walk ∅ initial_world)),
         (fst (pillar_loop fs arn content pillars ∅ before)).
  assert (Hdom : dom (fst (walk_loop fs arn walk ∅ initial_world))
                 = list_to_set (map fst (files_read fs walk))).
  { rewrite walk_loop_dom, dom_empty_L. now rewrite union_empty_l_L. }
  split; [now rewrite main_walk|]. split; [exact Hdom|].
  split.
  { intros Hnd. rewrite <- size_dom, Hdom, size_list_to_set by exact Hnd.
    now rewrite length_map. }
  split.
  { subst walk. rewrite walk_loop_app, walk_loop_cons. fold st1.
    rewrite walk_loop_keep by exact Hwalk2.
    rewrite file_loop_app.
    rewrite (surjective_pairing (file_loop fs arn root files1 (fst st1) (snd st1))).
    fold before.
    rewrite (file_loop_read fs arn root file content) by assumption.
    rewrite file_loop_keep by (intros Hin; contradiction).
    apply lookup_insert_eq. }
  split.
  { rewrite pillar_loop_dom, dom_empty_L. now rewrite union_empty_l_L. }
  intros k p Hk start.
  exists (fst (analyze_chunks fs arn p (units_of content) start)).
  split.
  { rewrite (pillar_loop_lookup fs arn content p pillars k ∅ before
               pillars_NoDup Hk).
    fold start. now rewrite pillar_results_units. }
  split; [apply analyze_chunks_length|].
  split.
  { intros Hnil. apply (units_of_nonempty content).
    apply length_zero_iff_nil.
    rewrite <- (analyze_chunks_length fs arn p (units_of content) start).
    now rewrite Hnil. }
  split.
  - intros i unit Hi.
    rewrite (analyze_chunks_lookup fs arn p (units_of content) start i unit Hi).
    now destruct (fst (analyze_with_bedrock fs arn unit p _)).
  - intros Hnone. now apply analyze_chunks_no_template.
Qed.

Lemma read_file_has_own_entry_witness :
  exists (report : analysis_report) (fr : file_report),
    fst (@main echo_runtime two_dirs_store "arn"
           (Some [("infra/a", [], ["main.tf"]); ("infra/b", [], ["main.tf"])]))
    = Some report
    /\ report !! "main.tf" = Some fr
    /\ dom fr = list_to_set pillars
    /\ fr !! "Security" = Some [fallback "b" "Security"].
Proof.
  assert (Htf : PyStr.endswith ".tf" "main.tf" = true) by reflexivity.
  assert (Hread : read_file two_dirs_store (PyStr.path_join "infra/b" "main.tf")
                  = Ok "b") by (vm_compute; reflexivity).
  assert (Hlater : forall root' dirs' files',
             (root', dirs', files') ∈ @nil (string * list string * list string) ->
             "main.tf" ∈ files' ->
             is_ok (read_file two_dirs_store (PyStr.path_join root' "main.tf")) = false).
  { intros root' dirs' files' Hin. now apply elem_of_nil in Hin. }
  destruct (read_file_has_own_entry echo_runtime two_dirs_store "arn"
              [("infra/a", [], ["main.tf"])] [] "infra/b" [] [] [] "main.tf" "b"
              Htf Hread (not_elem_of_nil _) Hlater)
    as (report & fr & Hmain & _ & _ & Hfr & Hdom & Hpillars).
  exists report, fr. split; [exact Hmain|]. split; [exact Hfr|].
  split; [exact Hdom|].
  assert (Hk : pillars !! 1 = Some "Security") by reflexivity.
  destruct (Hpillars 1 "Security" Hk) as (outs & Hlook & Hlen & _ & Hunit & _).
  rewrite Hlook. f_equal.
  assert (Hi : units_of "b" !! 0 = Some "b") by reflexivity.
  specialize (Hunit 0 "b" Hi).
  vm_compute in Hunit. vm_compute in Hlen.
  destruct outs as [|o [|o' outs]]; [discriminate | | discriminate].
  injection Hunit as ->. reflexivity.
Defined.

(** C10.  The report is keyed by the file name alone.  Whatever was walked
    before a file (files of the same name in other directories included),
    if the file is read and no file of its name is read after it, the
    entry under its name is the file report made from its content, in the
    world left by everything walked before it: a later file overwrites the
    results of an earlier one of the same name. *)
Theorem later_file_overwrites (R : Runtime) (fs : gmap string file)
  (arn : string) (walk1 walk2 : list (string * list string * list string))
  (root : string) (dirs files1 files2 : list string) (file content : string) :
  PyStr.endswith ".tf" file = true ->
  read_file fs (PyStr.path_join root file) = Ok content ->
  file ∉ files2 ->
  (forall root' dirs' files', (root', dirs', files') ∈ walk2 -> file ∈ files' ->
     is_ok (read_file fs (PyStr.path_join root' file)) = false) ->
  let walk := walk1 ++ (root, dirs, files1 ++ file :: files2) :: walk2 in
  let st1 := walk_loop fs arn walk1 ∅ initial_world in
  let st2 := file_loop fs arn root files1 (fst st1) (snd st1) in
  exists report : analysis_report,
    fst (main fs arn (Some walk)) = Some report
    /\ report !! file
       = Some (fst (pillar_loop fs arn content pillars ∅ (snd st2))).
Proof.
  intros Htf Hread Hfiles2 Hwalk2 walk st1 st2.
  exists (fst (walk_loop fs arn walk ∅ initial_world)).
  split; [now rewrite main_walk|].
  subst walk. rewrite walk_loop_app, walk_loop_cons. fold st1.
  rewrite walk_loop_keep by exact Hwalk2.
  rewrite file_loop_app. fold st2.
  rewrite (file_loop_read fs arn root file content) by assumption.
  rewrite file_loop_keep by (intros Hin; contradiction).
  apply lookup_insert_eq.
Qed.

Example same_name_in_two_directories :
  let report :=
    fst (@main echo_runtime two_dirs_store "arn"
           (Some [("infra", ["a"; "b"], []);
                  ("infra/a", [], ["main.tf"]);
                  ("infra/b", [], ["main.tf"])])) in
  reported_files report = Some ["main.tf"]
  /\ outcomes_at report "main.tf" "Security" = Some [fallback "b" "Security"]
  /\ outcomes_at report "main.tf" "Reliability"
     = Some [not_found_outcome "Reliability"].
Proof. vm_compute. repeat split; reflexivity. Qed.

Lemma later_file_overwrites_witness :
  exists report : analysis_report,
    fst (@main echo_runtime two_dirs_store "arn"
           (Some ([("infra/a", [], ["main.tf"])]
                  ++ ("infra/b", [], [] ++ "main.tf" :: []) :: [])))
    = Some report
    /\ report !! "main.tf"
       = Some (fst (@pillar_loop echo_runtime two_dirs_store "arn" "b" pillars ∅
                      (snd (@file_loop echo_runtime two_dirs_store "arn" "infra/b" []
                              (fst (@walk_loop echo_runtime two_dirs_store "arn"
                                      [("infra/a", [], ["main.tf"])] ∅ initial_world))
                              (snd (@walk_loop echo_runtime two_dirs_store "arn"
                                      [("infra/a", [], ["main.tf"])] ∅ initial_world)))))).
Proof.
  assert (Htf : PyStr.endswith ".tf" "main.tf" = true) by reflexivity.
  assert (Hread : read_file two_dirs_store (PyStr.path_join "infra/b" "main.tf")
                  = Ok "b") by (vm_compute; reflexivity).
  assert (Hlater : forall root' dirs' files',
             (root', dirs', files') ∈ @nil (string * list string * list string) ->
             "main.tf" ∈ files' ->
             is_ok (read_file two_dirs_store (PyStr.path_join root' "main.tf")) = false).
  { intros root' dirs' files' Hin. now apply elem_of_nil in Hin. }
  exact (later_file_overwrites echo_runtime two_dirs_store "arn"
           [("infra/a", [], ["main.tf"])] [] "infra/b" [] [] [] "main.tf" "b"
           Htf Hread (not_elem_of_nil _) Hlater).
Defined.

(** A text of 3500 characters is cut after its first 2000 characters. *)
Lemma chunks_of_3500 (content : string) :
  String.length content = 3500 ->
  chunks_of content = [PyStr.take 2000 content; PyStr.drop 2000 content].
Proof.
  intros Hlen. unfold chunks_of, chunk_text, default_max_chars.
  cbn [Z.eqb Z.ltb Z.compare]. change (Z.to_nat 2000) with 2000.
  rewrite Hlen.
  assert (Hrange : py_range 0 3500 2000 = [0; 2000]) by (vm_compute; reflexivity).
  rewrite Hrange. cbn [map]. unfold PyStr.slice.
  replace (0 + 2000 - 0) with 2000 by lia.
  replace (2000 + 2000 - 2000) with 2000 by lia.
  f_equal. f_equal.
  apply PyStrFacts.take_all. rewrite PyStrFacts.length_drop, Hlen. lia.
Qed.

Example long_file_run :
  let run := @main echo_runtime long_file_store "arn"
               (Some [("infra", [], ["main.tf"])]) in
  length (invocations (snd run)) = 12
  /\ length (requests (snd run)) = 12
  /\ reported_files (fst run) = Some ["main.tf"]
  /\ outcomes_at (fst run) "main.tf" "Security"
     = Some [fallback (text_of_length 2000) "Security";
             fallback (text_of_length 1500) "Security"].
Proof. vm_compute. repeat split; reflexivity. Qed.

(** C9.  A walk that yields one file of 3500 characters gives a report with
    that file's name as its only key.  The file is cut into its first 2000
    characters and the 1500 that follow; the run calls the invoker 12 times,
    for each of the six pillars in turn on the first chunk and then on the
    second; and each pillar's list holds exactly the two outcomes of its two
    calls, the first chunk's outcome before the second's. *)
Theorem one_long_file (R : Runtime) (fs : gmap string file) (arn root : string)
  (dirs : list string) (file content : string) :
  PyStr.endswith ".tf" file = true ->
  read_file fs (PyStr.path_join root file) = Ok content ->
  String.length content = 3500 ->
  let first := PyStr.take 2000 content in
  let second := PyStr.drop 2000 content in
  exists (fr : file_report) (w : world),
    main fs arn (Some [(root, dirs, [file])]) = (Some {[ file := fr ]}, w)
    /\ chunk_text content 2000 = Ok [first; second]
    /\ invocations w
       = flat_map (fun p => [(first, p); (second, p)]) pillars
    /\ length (invocations w) = 12
    /\ dom fr = list_to_set pillars
    /\ (forall (k : nat) (p : string),
          pillars !! k = Some p ->
          let before :=
            snd (pillar_loop fs arn content (take k pillars) ∅ initial_world) in
          let call1 := analyze_with_bedrock fs arn first p before in
          let call2 := analyze_with_bedrock fs arn second p (snd call1) in
          fr !! p = Some [outcome_of (fst call1); outcome_of (fst call2)]).
Proof.
  intros Htf Hread Hlen first second.
  pose proof (chunks_of_3500 content Hlen) as Hchunks. fold first second in Hchunks.
  assert (Hunits : units_of content = [first; second]).
  { unfold units_of, chunk_threshold. rewrite Hlen.
    now destruct (Nat.ltb_spec 2000 3500); [|lia]. }
  exists (fst (pillar_loop fs arn content pillars ∅ initial_world)),
         (snd (pillar_loop fs arn content pillars ∅ initial_world)).
  split.
  { rewrite main_walk, walk_loop_cons.
    rewrite (file_loop_read fs arn root file content) by assumption.
    cbn [file_loop walk_loop fst snd]. now rewrite insert_empty. }
  split; [now rewrite <- Hchunks|].
  assert (Hcalls : invocations (snd (pillar_loop fs arn content pillars ∅ initial_world))
                   = flat_map (fun p => [(first, p); (second, p)]) pillars).
  { rewrite pillar_loop_invocations. unfold calls_of_file. now rewrite Hunits. }
  split; [exact Hcalls|]. split; [now rewrite Hcalls|].
  split.
  { rewrite pillar_loop_dom, dom_empty_L. now rewrite union_empty_l_L. }
  intros k p Hk before call1 call2.
  rewrite (pillar_loop_lookup fs arn content p pillars k ∅ initial_world
             pillars_NoDup Hk).
  fold before. rewrite pillar_results_units, Hunits.
  now rewrite !analyze_chunks_cons.
Qed.

Lemma one_long_file_witness :
  exists (fr : file_report) (w : world),
    @main echo_runtime long_file_store "arn" (Some [("infra", [], ["main.tf"])])
    = (Some {[ "main.tf" := fr ]}, w)
    /\ length (invocations w) = 12
    /\ dom fr = list_to_set pillars.
Proof.
  assert (Htf : PyStr.endswith ".tf" "main.tf" = true) by reflexivity.
  assert (Hread : read_file long_file_store (PyStr.path_join "infra" "main.tf")
                  = Ok (text_of_length 3500)) by (vm_compute; reflexivity).
  assert (Hlen : String.length (text_of_length 3500) = 3500)
    by (vm_compute; reflexivity).
  destruct (one_long_file echo_runtime long_file_store "arn" "infra" [] "main.tf"
              (text_of_length 3500) Htf Hread Hlen)
    as (fr & w & Hmain & _ & _ & Hcount & Hdom & _).
  exists fr, w. split; [exact Hmain|]. split; [exact Hcount | exact Hdom].
Defined.

(** * Further properties *)

(** ** The chunker beyond its contract *)

Lemma ceil_div_pred (a b : nat) :
  0 < b -> 0 < a -> (ceil_div a b - 1) * b < a /\ 0 < ceil_div a b.
Proof.
  intros Hb Ha. destruct (ceil_div_spec a b Hb) as [Hup Hleast].
  assert (Hpos : 0 < ceil_div a b).
  { destruct (ceil_div a b); [cbn in Hup; lia | lia]. }
  split; [|exact Hpos].
  destruct (Nat.lt_ge_cases ((ceil_div a b - 1) * b) a) as [?|Hge]; [assumption|].
  specialize (Hleast _ Hge). lia.
Qed.

(** X1.  With a positive chunk size no chunk is empty, and every chunk
    that is not the last one has exactly [max_chars] characters. *)
Theorem chunk_text_full_chunks (text : string) (max_chars : Z)
  (chunks : list string) (k : nat) (c : string) :
  (0 < max_chars)%Z ->
  chunk_text text max_chars = Ok chunks ->
  chunks !! k = Some c ->
  0 < String.length c
  /\ (S k < length chunks -> Z.of_nat (String.length c) = max_chars).
Proof.
  intros Hpos Hchunks Hk. unfold chunk_text in Hchunks.
  destruct (Z.eqb_spec max_chars 0) as [?|_]; [lia|].
  destruct (Z.ltb_spec max_chars 0) as [?|_]; [lia|].
  injection Hchunks as <-.
  set (step := Z.to_nat max_chars) in *.
  assert (Hstep : 0 < step) by (unfold step; lia).
  pose proof Hk as Hlt. apply lookup_lt_Some in Hlt.
  rewrite length_map in *. unfold py_range in *.
  rewrite range_loop_length in * by (trivial; lia).
  rewrite Nat.sub_0_r in *.
  apply map_lookup_Some in Hk as (i & Hi & ->).
  apply range_loop_lookup in Hi as [-> Hi]; [|assumption].
  unfold PyStr.slice. rewrite PyStrFacts.length_take, PyStrFacts.length_drop.
  replace (0 + k * step + step - (0 + k * step)) with step by lia.
  split; [lia|]. intros Hnext.
  destruct (ceil_div_pred (String.length text) step Hstep ltac:(lia)) as [Hpred _].
  assert (Hk1 : (k + 1) * step <= (ceil_div (String.length text) step - 1) * step)
    by (apply Nat.mul_le_mono_r; lia).
  unfold step in *. lia.
Qed.

Lemma chunk_text_full_chunks_witness :
  0 < String.length "abc"
  /\ (1 < length ["abc"; "def"; "g"] -> Z.of_nat (String.length "abc") = 3%Z).
Proof.
  apply (chunk_text_full_chunks "abcdefg" 3 ["abc"; "def"; "g"] 0 "abc");
    [lia | reflexivity | reflexivity].
Defined.



Lemma chunk_text_one_chunk (text : string) (max_chars : Z) :
  text <> "" -> (Z.of_nat (String.length text) <= max_chars)%Z ->
  chunk_text text max_chars = Ok [text].
Proof.
  intros Hne Hfit.
  assert (Hlen : 0 < String.length text) by (destruct text; [easy | cbn; lia]).
  unfold chunk_text.
  destruct (Z.eqb_spec max_chars 0) as [?|_]; [lia|].
  destruct (Z.ltb_spec max_chars 0) as [?|_]; [lia|].
  f_equal. unfold py_range. rewrite Nat.sub_0_r.
  destruct (String.length text) as [|n] eqn:E; [lia|].
  cbn [range_loop]. destruct (Nat.ltb_spec 0 (S n)); [|lia].
  assert (Hrest : range_loop n (0 + Z.to_nat max_chars) (S n) (Z.to_nat max_chars) = []).
  { destruct n; [reflexivity|]. cbn [range_loop].
    destruct (Nat.ltb_spec (0 + Z.to_nat max_chars) (S (S n))); [lia | reflexivity]. }
  rewrite Hrest. cbn [map]. unfold PyStr.slice. cbn [PyStr.drop].
  rewrite PyStrFacts.take_all; [reflexivity | rewrite E; lia].
Qed.

(** X3.  A non-empty text that fits in one chunk comes back as that single
    chunk. *)
Theorem chunk_text_single (text : string) (max_chars : Z) :
  text <> "" -> (Z.of_nat (String.length text) <= max_chars)%Z ->
  chunk_text text max_chars = Ok [text].
Proof. apply chunk_text_one_chunk. Qed.

Lemma chunk_text_single_witness : chunk_text "abc" 3 = Ok ["abc"].
Proof. apply chunk_text_single; [discriminate | cbn; lia]. Defined.

(** ** The prompt loader beyond its contract *)

Lemma normalize_char_idempotent (c : ascii) :
  normalize_char (normalize_char c) = normalize_char c.
Proof. destruct c as [[] [] [] [] [] [] [] []]; reflexivity. Qed.

Lemma normalized_name_idempotent (pillar : string) :
  normalized_name (normalized_name pillar) = normalized_name pillar.
Proof.
  unfold normalized_name. induction pillar as [|c s IH]; [reflexivity|].
  cbn [map_chars]. now rewrite normalize_char_idempotent, IH.
Qed.

Lemma prompt_path_normalized (pillar : string) :
  prompt_path pillar
  = PyStr.path_join "prompts" (normalized_name pillar +:+ ".txt").
Proof. unfold prompt_path. now rewrite prompt_filename_normalized. Qed.

(** X4.  Category names with the same normalized form, such as names that
    differ in letter case or in spaces against underscores, are served by
    the same template and get the same prompt; in particular a name and
    its normalized form do. *)
Theorem same_normal_form_same_prompt (fs : gmap string file)
  (pillar1 pillar2 code : string) :
  normalized_name pillar1 = normalized_name pillar2 ->
  prompt_path pillar1 = prompt_path pillar2
  /\ load_prompt fs pillar1 code = load_prompt fs pillar2 code
  /\ load_prompt fs (normalized_name pillar1) code = load_prompt fs pillar2 code.
Proof.
  intros Hsame.
  assert (Hpath : prompt_path pillar1 = prompt_path pillar2)
    by now rewrite !prompt_path_normalized, Hsame.
  assert (Hnorm : prompt_path (normalized_name pillar1) = prompt_path pillar2)
    by now rewrite !prompt_path_normalized, normalized_name_idempotent, Hsame.
  split; [exact Hpath|]. unfold load_prompt. now rewrite Hpath, Hnorm.
Qed.

Lemma same_normal_form_same_prompt_witness :
  load_prompt (security_store "Review: {code}") "SECURITY" "x"
  = load_prompt (security_store "Review: {code}") "security" "x".
Proof.
  apply (same_normal_form_same_prompt (security_store "Review: {code}")
           "SECURITY" "security" "x").
  reflexivity.
Defined.

Lemma normalized_name_app (s t : string) :
  normalized_name (s +:+ t) = normalized_name s +:+ normalized_name t.
Proof.
  unfold normalized_name. induction s as [|c s IH]; [reflexivity|].
  cbn [String.append map_chars]. now rewrite IH.
Qed.

(** X5.  [load_prompt] does not keep the path of the template inside
    [prompts].  The path handed to [open] is the normalized name followed
    by [.txt], after [prompts/] when the name does not start with a slash
    and alone when it does: [os.path.join] then drops the directory and
    the path is absolute.  Dots and slashes of the name are kept as they
    are, so a name that starts with [../] gives a path that starts with
    [prompts/../]. *)
Theorem prompt_path_not_confined (pillar : string) :
  prompt_path pillar
  = (if PyStr.startswith "/" pillar then "" else "prompts/")
    +:+ normalized_name pillar +:+ ".txt"
  /\ prompt_path ("/" +:+ pillar) = "/" +:+ normalized_name pillar +:+ ".txt"
  /\ prompt_path ("../" +:+ pillar)
     = "prompts/../" +:+ normalized_name pillar +:+ ".txt".
Proof.
  assert (Hpath : forall name : string,
             prompt_path name
             = (if PyStr.startswith "/" name then "" else "prompts/")
               +:+ normalized_name name +:+ ".txt").
  { intros name. rewrite prompt_path_normalized. unfold PyStr.path_join.
    rewrite normalized_name_slash.
    now destruct (PyStr.startswith "/" name). }
  split; [apply Hpath|]. split.
  - rewrite Hpath, normalized_name_app. reflexivity.
  - rewrite Hpath, normalized_name_app. reflexivity.
Qed.

Lemma prompt_path_not_confined_witness :
  prompt_path "/etc/Shadow Copy" = "/etc/shadow_copy.txt"
  /\ prompt_path "../../etc/passwd" = "prompts/../../etc/passwd.txt".
Proof.
  split.
  - destruct (prompt_path_not_confined "etc/Shadow Copy") as (_ & Habs & _).
    exact Habs.
  - destruct (prompt_path_not_confined "../etc/passwd") as (_ & _ & Hup).
    exact Hup.
Defined.

Section BraceFree.
Import PyStr PyStrFacts.

Variable code : string.

(** Text without an opening brace is copied by the scan for the
    placeholder. *)
Lemma replace_loop_brace_free (pre rest : string) :
  no_brace pre = true ->
  replace_loop placeholder code 0 (pre +:+ rest)
  = pre +:+ replace_loop placeholder code 0 rest.
Proof.
  induction pre as [|c pre IH]; intros Hpre; [reflexivity|].
  cbn [no_brace] in Hpre. apply andb_prop in Hpre as [Hc Hpre].
  apply negb_true_iff in Hc. rewrite Ascii.eqb_sym in Hc.
  cbn [String.append replace_loop]. unfold placeholder at 1. cbn [startswith].
  rewrite Hc. now rewrite IH.
Qed.

Lemma replace_loop_placeholder (rest : string) :
  replace_loop placeholder code 0 (placeholder +:+ rest)
  = code +:+ replace_loop placeholder code 0 rest.
Proof. reflexivity. Qed.

End BraceFree.

(** X6.  The subject text is inserted as it is and is not scanned again:
    for a template with one placeholder between two texts without braces,
    the prompt is the subject text between those two texts, also when the
    subject text itself holds the placeholder. *)
Theorem load_prompt_inserts_verbatim (fs : gmap string file)
  (pillar code pre post : string) :
  fs !! prompt_path pillar = Some (Readable (pre +:+ placeholder +:+ post)) ->
  no_brace pre = true -> no_brace post = true ->
  load_prompt fs pillar code = Ok (pre +:+ code +:+ post).
Proof.
  intros Hfs Hpre Hpost. unfold load_prompt, read_file. rewrite Hfs.
  f_equal. unfold PyStr.replace.
  rewrite replace_loop_brace_free by exact Hpre.
  rewrite replace_loop_placeholder.
  rewrite <- (PyStrFacts.app_nil_r post) at 1.
  rewrite replace_loop_brace_free by exact Hpost.
  cbn [PyStr.replace_loop]. now rewrite PyStrFacts.app_nil_r.
Qed.

Lemma load_prompt_inserts_verbatim_witness :
  load_prompt (security_store "Review: {code}!") "Security" "a {code} b"
  = Ok "Review: a {code} b!".
Proof.
  apply (load_prompt_inserts_verbatim (security_store "Review: {code}!")
           "Security" "a {code} b" "Review: " "!");
    reflexivity.
Defined.

(** ** The text of a reply *)

Lemma blocks_text_values (items : list json) (texts : list string) :
  blocks_text items = Some texts ->
  exists values : list json,
    text_blocks items = Ok values /\ join_values values = Ok (PyStr.join texts).
Proof.
  revert texts; induction items as [|c items IH]; intros texts.
  - intros [= <-]. now exists [].
  - cbn [blocks_text].
    destruct (block_text c) as [t|] eqn:Hc; [|discriminate].
    destruct (blocks_text items) as [ts|]; [|discriminate].
    intros [= <-]. destruct (IH ts eq_refl) as (values & Hvalues & Hjoin).
    destruct c as [| | | | |l|d]; try discriminate. cbn [block_text] in Hc.
    cbn [text_blocks subscript].
    destruct (dict_get d "type") as [ty|]; [|discriminate].
    destruct (is_text_tag ty).
    + destruct (dict_get d "text") as [[| | | |s| |]|]; try discriminate.
      injection Hc as ->. rewrite Hvalues. eexists. split; [reflexivity|].
      cbn [join_values PyStr.join]. now rewrite Hjoin.
    + injection Hc as <-. exists values. split; [exact Hvalues|].
      exact Hjoin.
Qed.

(** X7.  Of the content blocks of a reply only those of type [text]
    contribute, each with its text, in the order of the list; a block of
    another type is passed over and needs no text. *)
Theorem extract_text_joins_text_blocks (d : list (string * json))
  (items : list json) (texts : list string) :
  dict_get d "content" = Some (JList items) ->
  blocks_text items = Some texts ->
  extract_text (JDict d) = Ok (PyStr.join texts).
Proof.
  intros Hcontent Hblocks. unfold extract_text, get_content.
  rewrite Hcontent. cbn [iter_items].
  destruct (blocks_text_values items texts Hblocks) as (values & -> & Hjoin).
  exact Hjoin.
Qed.

Lemma extract_text_joins_text_blocks_witness :
  extract_text
    (JDict [("id", JStr "msg");
            ("content",
             JList [JDict [("type", JStr "text"); ("text", JStr "[1,")];
                    JDict [("type", JStr "tool_use"); ("name", JStr "t")];
                    JDict [("type", JStr "text"); ("text", JStr " 2]")]])])
  = Ok "[1, 2]".
Proof.
  apply (extract_text_joins_text_blocks _
           [JDict [("type", JStr "text"); ("text", JStr "[1,")];
            JDict [("type", JStr "tool_use"); ("name", JStr "t")];
            JDict [("type", JStr "text"); ("text", JStr " 2]")]]
           ["[1,"; ""; " 2]"]);
    reflexivity.
Defined.

Lemma text_blocks_missing_type (pre post : list json) (bad : list (string * json)) :
  is_Some (blocks_text pre) -> dict_get bad "type" = None ->
  text_blocks (pre ++ JDict bad :: post) = Raise (KeyError "type").
Proof.
  intros Hpre Hbad. induction pre as [|c pre IH].
  - cbn [app text_blocks subscript]. now rewrite Hbad.
  - destruct Hpre as [texts Hpre]. cbn [blocks_text] in Hpre.
    destruct (block_text c) as [t|] eqn:Hc; [|discriminate].
    destruct (blocks_text pre) as [ts|]; [|discriminate].
    specialize (IH ltac:(eauto)).
    destruct c as [| | | | |l|d]; try discriminate. cbn [block_text] in Hc.
    rewrite <- app_comm_cons. cbn [text_blocks subscript].
    destruct (dict_get d "type") as [ty|]; [|discriminate].
    destruct (is_text_tag ty); [|exact IH].
    destruct (dict_get d "text") as [[| | | |s| |]|]; try discriminate.
    now rewrite IH.
Qed.

(** X8.  One content block without a [type] entry makes the whole
    extraction raise [KeyError], whatever well-formed blocks stand before
    it and whatever follows it. *)
Theorem extract_text_missing_type (d bad : list (string * json))
  (pre post : list json) :
  dict_get d "content" = Some (JList (pre ++ JDict bad :: post)) ->
  is_Some (blocks_text pre) -> dict_get bad "type" = None ->
  extract_text (JDict d) = Raise (KeyError "type").
Proof.
  intros Hcontent Hpre Hbad. unfold extract_text, get_content.
  rewrite Hcontent. cbn [iter_items].
  now rewrite text_blocks_missing_type.
Qed.

Lemma extract_text_missing_type_witness :
  extract_text
    (JDict [("content",
             JList [JDict [("type", JStr "text"); ("text", JStr "{}")];
                    JDict [("text", JStr "more")]])])
  = Raise (KeyError "type").
Proof.
  apply (extract_text_missing_type _ [("text", JStr "more")]
           [JDict [("type", JStr "text"); ("text", JStr "{}")]] []).
  - reflexivity.
  - now exists ["{}"].
  - reflexivity.
Defined.

(** ** The cleaned text *)

Section Trimmed.
Import PyStr PyStrFacts.

Lemma lstrip_head (s : string) : head_space (lstrip s) = false.
Proof.
  induction s as [|c s IH]; [reflexivity|]. cbn [lstrip].
  destruct (is_space c) eqn:Hc; [exact IH | exact Hc].
Qed.

Lemma rstrip_last (s : string) : last_space (rstrip s) = false.
Proof.
  induction s as [|c s IH]; [reflexivity|]. cbn [rstrip].
  destruct (rstrip s) as [|c' r].
  - destruct (is_space c) eqn:Hc; [reflexivity | exact Hc].
  - exact IH.
Qed.

Lemma rstrip_head (s : string) :
  head_space s = false -> head_space (rstrip s) = false.
Proof.
  destruct s as [|c s]; [reflexivity|]. cbn [head_space rstrip]. intros Hc.
  destruct (rstrip s); [now rewrite Hc | exact Hc].
Qed.

Lemma lstrip_id (s : string) : head_space s = false -> lstrip s = s.
Proof. destruct s as [|c s]; [reflexivity|]. cbn. now intros ->. Qed.

Lemma rstrip_cons (c : ascii) (s : string) :
  rstrip (String c s)
  = match rstrip s with
    | "" => if is_space c then "" else String c ""
    | String c' r => String c (String c' r)
    end.
Proof. reflexivity. Qed.

Lemma rstrip_id (s : string) : last_space s = false -> rstrip s = s.
Proof.
  induction s as [|c s IH]; [reflexivity|]. intros Hlast.
  destruct s as [|c' s'].
  - cbn in *. now rewrite Hlast.
  - rewrite rstrip_cons, IH by exact Hlast. reflexivity.
Qed.

Lemma strip_trimmed (s : string) :
  head_space (strip s) = false /\ last_space (strip s) = false.
Proof.
  unfold strip. split; [apply rstrip_head, lstrip_head | apply rstrip_last].
Qed.

Lemma strip_idempotent (s : string) : strip (strip s) = strip s.
Proof.
  destruct (strip_trimmed s) as [Hhead Hlast].
  unfold strip at 1. now rewrite lstrip_id, rstrip_id.
Qed.

Lemma no_backtick_lstrip (s : string) :
  no_backtick s = true -> no_backtick (lstrip s) = true.
Proof.
  induction s as [|c s IH]; [reflexivity|]. cbn [lstrip].
  destruct (is_space c); [|trivial].
  cbn [no_backtick]. intros [_ Hs]%andb_prop. now apply IH.
Qed.

Lemma no_backtick_rstrip (s : string) :
  no_backtick s = true -> no_backtick (rstrip s) = true.
Proof.
  induction s as [|c s IH]; [reflexivity|].
  cbn [no_backtick]. intros [Hc Hs]%andb_prop. specialize (IH Hs).
  cbn [rstrip]. destruct (rstrip s) as [|c' r].
  - destruct (is_space c); [reflexivity|]. cbn [no_backtick]. now rewrite Hc.
  - cbn [no_backtick] in *. now rewrite Hc.
Qed.

Lemma re_sub_fences_plain (s : string) :
  no_backtick s = true -> re_sub_fences s = s.
Proof.
  intros Hs. unfold re_sub_fences.
  rewrite <- (app_nil_r s) at 1. rewrite fence_loop_plain by exact Hs.
  now rewrite fence_loop_empty, app_nil_r.
Qed.

End Trimmed.

(** X9.  A reply without any backtick is only stripped of the white space
    around it: the pattern removes nothing from it. *)
Theorem clean_text_without_backtick (text_out : string) :
  no_backtick text_out = true -> clean_text text_out = PyStr.strip text_out.
Proof.
  intros Hplain. unfold clean_text.
  rewrite re_sub_fences_plain.
  - apply strip_idempotent.
  - unfold PyStr.strip. now apply no_backtick_rstrip, no_backtick_lstrip.
Qed.

Lemma clean_text_without_backtick_witness :
  clean_text "  not json at all  " = "not json at all".
Proof.
  rewrite (clean_text_without_backtick "  not json at all  ") by reflexivity.
  reflexivity.
Defined.

(** X10.  The cleaned text never starts or ends with white space, so
    neither does the description of the fallback envelope made from it. *)
Theorem clean_text_is_trimmed (R : Runtime) (text_out pillar : string) :
  head_space (clean_text text_out) = false
  /\ last_space (clean_text text_out) = false
  /\ (is_ok (json_loads (clean_text text_out)) = false ->
      exists description : string,
        normalize text_out pillar = Ok (fallback description pillar)
        /\ head_space description = false /\ last_space description = false).
Proof.
  destruct (strip_trimmed (re_sub_fences (PyStr.strip text_out))) as [Hhead Hlast].
  split; [exact Hhead|]. split; [exact Hlast|].
  intros Hfail. exists (clean_text text_out). unfold normalize.
  destruct (json_loads (clean_text text_out)); [discriminate|].
  now split.
Qed.

Lemma clean_text_is_trimmed_witness :
  exists description : string,
    @normalize (fixed_runtime (Ok "")) "  some prose  " "Security"
    = Ok (fallback description "Security")
    /\ head_space description = false /\ last_space description = false.
Proof.
  destruct (clean_text_is_trimmed (fixed_runtime (Ok "")) "  some prose  " "Security")
    as (_ & _ & Hfallback).
  apply Hfallback. reflexivity.
Defined.

(** ** Fences with other opening markers *)

Section OtherFences.
Import PyStr PyStrFacts.

Lemma no_backtick_app (s t : string) :
  no_backtick (s +:+ t) = no_backtick s && no_backtick t.
Proof.
  induction s as [|c s IH]; [reflexivity|].
  cbn [String.append no_backtick]. now rewrite IH, andb_assoc.
Qed.

(** A tag of one line starts with [json] as soon as what follows the
    marker does. *)
Lemma startswith_json_line (tag rest : string) :
  no_newline tag = true ->
  startswith "json" (tag +:+ nl +:+ rest) = startswith "json" tag.
Proof.
  intros Hline.
  destruct tag as [|c1 [|c2 [|c3 [|c4 tag]]]]; cbn [String.append startswith];
    cbn [no_newline] in Hline;
    repeat match goal with
           | |- context [Ascii.eqb ?a ?b] =>
               destruct (Ascii.eqb_spec a b); try subst; try discriminate
           end;
    try reflexivity.
Qed.

Lemma rstrip_keeps_head (c : ascii) (s : string) :
  is_space c = false -> exists r, rstrip (String c s) = String c r.
Proof.
  intros Hc. rewrite rstrip_cons. destruct (rstrip s) as [|c' r].
  - rewrite Hc. now exists "".
  - now exists (String c' r).
Qed.

Lemma fence_loop_step (bol : bool) (c : ascii) (s : string) :
  fence_loop bol 0 (String c s)
  = if bol && startswith fence_open (String c s)
    then fence_loop false (String.length fence_open - 1) s
    else if startswith fence (String c s)
            && at_eol (PyStr.drop (String.length fence) (String c s))
    then fence_loop false (String.length fence - 1) s
    else String c (fence_loop (Ascii.eqb c newline) 0 s).
Proof. reflexivity. Qed.

Lemma not_fence_after_two (c : ascii) (x : string) :
  Ascii.eqb c backtick = false ->
  startswith fence (String "`" (String "`" (String c x))) = false.
Proof.
  destruct c as [[] [] [] [] [] [] [] []]; intros H; try discriminate H;
    reflexivity.
Qed.

Lemma not_fence_after_one (c : ascii) (x : string) :
  Ascii.eqb c backtick = false ->
  startswith fence (String "`" (String c x)) = false.
Proof.
  destruct c as [[] [] [] [] [] [] [] []]; intros H; try discriminate H;
    reflexivity.
Qed.

(** The scan keeps an opening marker whose tag is not [json]. *)
Lemma fence_loop_other_tag (c : ascii) (tag rest : string) :
  Ascii.eqb c backtick = false -> Ascii.eqb c newline = false ->
  startswith "json" (String c tag +:+ rest) = false ->
  fence_loop true 0 (fence +:+ String c tag +:+ rest)
  = fence +:+ fence_loop false 0 (String c tag +:+ rest).
Proof.
  intros Hbt Hnl Hjson.
  unfold fence at 1 2. cbn [String.append].
  rewrite fence_loop_step.
  change (startswith fence_open
            (String "`" (String "`" (String "`" (String c (tag +:+ rest))))))
    with (startswith "json" (String c tag +:+ rest)).
  rewrite Hjson.
  change (at_eol (PyStr.drop (String.length fence)
            (String "`" (String "`" (String "`" (String c (tag +:+ rest)))))))
    with (Ascii.eqb c newline).
  rewrite Hnl, andb_false_r. cbn [andb]. f_equal.
  change (Ascii.eqb "`" newline) with false.
  rewrite fence_loop_step, not_fence_after_two by exact Hbt.
  cbn [andb]. f_equal.
  change (Ascii.eqb "`" newline) with false.
  rewrite fence_loop_step, not_fence_after_one by exact Hbt.
  cbn [andb]. reflexivity.
Qed.

End OtherFences.

Section FencedReplies.
Import PyStr PyStrFacts.

Lemma rstrip_nonspace (c : ascii) (s : string) :
  is_space c = false -> rstrip (String c s) = String c (rstrip s).
Proof.
  intros Hc. rewrite rstrip_cons. destruct (rstrip s); [now rewrite Hc | reflexivity].
Qed.

Lemma rstrip_fence (s : string) : rstrip (fence +:+ s) = fence +:+ rstrip s.
Proof.
  unfold fence. cbn [String.append].
  now rewrite !rstrip_nonspace by reflexivity.
Qed.

Lemma strip_fenced (x : string) :
  strip (fence +:+ x +:+ fence) = fence +:+ x +:+ fence.
Proof.
  unfold strip.
  change (lstrip (fence +:+ x +:+ fence)) with (fence +:+ x +:+ fence).
  rewrite <- app_assoc. now rewrite rstrip_app_keep.
Qed.

Lemma fence_loop_last (bol : bool) : fence_loop bol 0 fence = "".
Proof. now destruct bol. Qed.

Lemma clean_text_bare (body : string) :
  no_backtick body = true ->
  clean_text (fence +:+ nl +:+ body +:+ nl +:+ fence) = strip body.
Proof.
  intros Hbody. unfold clean_text.
  replace (fence +:+ nl +:+ body +:+ nl +:+ fence)
    with (fence +:+ (nl +:+ body +:+ nl) +:+ fence)
    by now rewrite !app_assoc.
  rewrite strip_fenced. unfold re_sub_fences.
  rewrite fence_loop_close by reflexivity.
  rewrite fence_loop_plain
    by (rewrite !no_backtick_app, Hbody; reflexivity).
  rewrite fence_loop_last, app_nil_r.
  rewrite (strip_space_app nl) by reflexivity.
  now apply strip_app_space.
Qed.

Lemma clean_text_tagged (tag body : string) :
  tag <> "" -> no_backtick tag = true -> no_newline tag = true ->
  startswith "json" tag = false -> no_backtick body = true ->
  clean_text (fence +:+ tag +:+ nl +:+ body +:+ nl +:+ fence)
  = fence +:+ rstrip (tag +:+ nl +:+ body).
Proof.
  intros Hne Htag Hline Hjson Hbody. unfold clean_text.
  replace (fence +:+ tag +:+ nl +:+ body +:+ nl +:+ fence)
    with (fence +:+ (tag +:+ nl +:+ body +:+ nl) +:+ fence)
    by now rewrite !app_assoc.
  rewrite strip_fenced. unfold re_sub_fences.
  destruct tag as [|c tag]; [contradiction|].
  pose proof Htag as Hc. pose proof Hline as Hn.
  cbn [no_backtick] in Hc. apply andb_prop in Hc as [Hc _].
  cbn [no_newline] in Hn. apply andb_prop in Hn as [Hn _].
  apply negb_true_iff in Hc, Hn.
  replace ((String c tag +:+ nl +:+ body +:+ nl) +:+ fence)
    with (String c tag +:+ (nl +:+ body +:+ nl +:+ fence))
    by now rewrite !app_assoc.
  rewrite fence_loop_other_tag;
    [|exact Hc | exact Hn | now rewrite startswith_json_line].
  replace (String c tag +:+ nl +:+ body +:+ nl +:+ fence)
    with ((String c tag +:+ nl +:+ body +:+ nl) +:+ fence)
    by now rewrite !app_assoc.
  rewrite fence_loop_plain
    by (rewrite !no_backtick_app, Htag, Hbody; reflexivity).
  rewrite fence_loop_last, app_nil_r.
  unfold strip.
  change (lstrip (fence +:+ String c tag +:+ nl +:+ body +:+ nl))
    with (fence +:+ String c tag +:+ nl +:+ body +:+ nl).
  rewrite rstrip_fence. f_equal.
  replace (String c tag +:+ nl +:+ body +:+ nl)
    with ((String c tag +:+ nl +:+ body) +:+ nl)
    by now rewrite !app_assoc.
  now apply rstrip_app_space.
Qed.

End FencedReplies.

Lemma loads_rejects_fence (s : string) : is_ok (PyJson.loads (fence +:+ s)) = false.
Proof. reflexivity. Qed.

(** X23.  An opening marker without a language tag is removed as well: a
    reply between two bare markers on lines of their own is cleaned to its
    stripped body. *)
Theorem clean_text_bare_fence (body : string) :
  no_backtick body = true ->
  clean_text (fence +:+ nl +:+ body +:+ nl +:+ fence) = PyStr.strip body.
Proof. apply clean_text_bare. Qed.

Lemma clean_text_bare_fence_witness :
  clean_text (fence +:+ nl +:+ issues_text +:+ nl +:+ fence) = issues_text.
Proof.
  rewrite (clean_text_bare_fence issues_text) by reflexivity. reflexivity.
Defined.

(** X24.  An opening marker with another tag than [json] (the pattern is
    case-sensitive) is kept: the cleaned text still starts with the marker
    and its tag, and a runtime whose [json.loads] refuses a text that
    starts with the marker makes the normalizer return the fallback
    envelope, though the body may be valid JSON. *)
Theorem clean_text_other_tag (R : Runtime) (tag body pillar : string) :
  tag <> "" -> no_backtick tag = true -> no_newline tag = true ->
  PyStr.startswith "json" tag = false -> no_backtick body = true ->
  let reply := fence +:+ tag +:+ nl +:+ body +:+ nl +:+ fence in
  clean_text reply = fence +:+ PyStr.rstrip (tag +:+ nl +:+ body)
  /\ ((forall s, is_ok (json_loads (fence +:+ s)) = false) ->
      normalize reply pillar
      = Ok (fallback (fence +:+ PyStr.rstrip (tag +:+ nl +:+ body)) pillar)).
Proof.
  intros Hne Htag Hline Hjson Hbody reply.
  assert (Hclean : clean_text reply = fence +:+ PyStr.rstrip (tag +:+ nl +:+ body))
    by now apply clean_text_tagged.
  split; [exact Hclean|]. intros Hrefuse.
  unfold normalize. rewrite Hclean.
  specialize (Hrefuse (PyStr.rstrip (tag +:+ nl +:+ body))).
  now destruct (json_loads _).
Qed.

Lemma clean_text_other_tag_witness :
  @normalize (fixed_runtime (Ok ""))
    (fence +:+ "JSON" +:+ nl +:+ issues_text +:+ nl +:+ fence) "Security"
  = Ok (fallback (fence +:+ "JSON" +:+ nl +:+ issues_text) "Security").
Proof.
  assert (Hne : "JSON" <> "") by discriminate.
  destruct (clean_text_other_tag (fixed_runtime (Ok "")) "JSON" issues_text
              "Security" Hne eq_refl eq_refl eq_refl eq_refl) as [_ Hfallback].
  rewrite Hfallback by exact loads_rejects_fence. reflexivity.
Defined.

(** ** The invoker beyond its contract *)

Lemma analyze_sends_one_request_eq {R : Runtime} (fs : gmap string file)
  (arn text pillar : string) (w : world) :
  requests (snd (analyze_with_bedrock fs arn text pillar w))
  = match load_prompt fs pillar text with
    | Ok p => requests w ++ [mkRequest arn "bedrock-2023-05-31" 4000 p]
    | Raise _ => requests w
    end.
Proof.
  unfold analyze_with_bedrock.
  destruct (load_prompt fs pillar text) as [p|e]; [|reflexivity].
  destruct (invoke_model _ _); [|reflexivity].
  destruct (json_loads _); [|reflexivity].
  destruct (extract_text _); reflexivity.
Qed.

(** X11.  A call of the invoker sends exactly one request, with the fixed
    parameters and the loaded prompt, when the template can be loaded, and
    none when it cannot; it changes nothing of the requests sent before,
    and whatever the service answers, the call is not repeated. *)
Theorem analyze_sends_one_request (R : Runtime) (fs : gmap string file)
  (arn text pillar : string) (w : world) :
  (forall p : string,
     load_prompt fs pillar text = Ok p ->
     requests (snd (analyze_with_bedrock fs arn text pillar w))
     = requests w ++ [mkRequest arn "bedrock-2023-05-31" 4000 p])
  /\ (is_ok (load_prompt fs pillar text) = false ->
      requests (snd (analyze_with_bedrock fs arn text pillar w)) = requests w).
Proof.
  rewrite analyze_sends_one_request_eq.
  destruct (load_prompt fs pillar text) as [p|e].
  - split; [intros p' [= <-]; reflexivity | discriminate].
  - split; [discriminate | reflexivity].
Qed.

Lemma analyze_sends_one_request_witness :
  requests (snd (@analyze_with_bedrock (fixed_runtime (Raise (ClientError "down")))
                   (security_store "Review: {code}") "arn" "x" "Security"
                   initial_world))
  = [mkRequest "arn" "bedrock-2023-05-31" 4000 "Review: x"].
Proof.
  destruct (analyze_sends_one_request (fixed_runtime (Raise (ClientError "down")))
              (security_store "Review: {code}") "arn" "x" "Security" initial_world)
    as [Hsent _].
  apply (Hsent "Review: x"). reflexivity.
Defined.

(** X12.  The invoker raises exactly what the loading of the prompt, the
    remote call, the decoding of the reply body or the reading of its
    text blocks raise; once these four succeed it returns a value, however
    malformed the text of the reply is. *)
Theorem analyze_raises_iff (R : Runtime) (fs : gmap string file)
  (arn text pillar : string) (w : world) (e : exn) :
  fst (analyze_with_bedrock fs arn text pillar w) = Raise e
  <-> load_prompt fs pillar text = Raise e
      \/ exists p : string,
           load_prompt fs pillar text = Ok p
           /\ let answer :=
                invoke_model (requests (log_invocation text pillar w))
                  (mkRequest arn "bedrock-2023-05-31" 4000 p) in
              (answer = Raise e
               \/ exists raw : string,
                    answer = Ok raw
                    /\ (json_loads raw = Raise e
                        \/ exists data : json,
                             json_loads raw = Ok data
                             /\ extract_text data = Raise e)).
Proof.
  unfold analyze_with_bedrock.
  destruct (load_prompt fs pillar text) as [p|e0]; cbn [fst].
  2:{ split; [intros [= ->]; now left|].
      intros [[= ->]|(p & [=] & _)]. reflexivity. }
  destruct (invoke_model _ _) as [raw|e1] eqn:Hcall; cbn [fst].
  2:{ split.
      - intros [= ->]. right. exists p. split; [reflexivity|]. left. exact Hcall.
      - intros [[=]|(p' & [= <-] & Hrest)]. cbn zeta in Hrest. rewrite Hcall in Hrest.
        destruct Hrest as [[= ->]|(raw & [=] & _)]. reflexivity. }
  destruct (json_loads raw) as [data|e2] eqn:Hraw; cbn [fst].
  2:{ split.
      - intros [= ->]. right. exists p. split; [reflexivity|]. right.
        exists raw. split; [exact Hcall|]. now left.
      - intros [[=]|(p' & [= <-] & Hrest)]. cbn zeta in Hrest. rewrite Hcall in Hrest.
        destruct Hrest as [[=]|(raw' & [= <-] & Hrest)]. rewrite Hraw in Hrest.
        destruct Hrest as [[= ->]|(data & [=] & _)]. reflexivity. }
  destruct (extract_text data) as [text_out|e3] eqn:Hdata; cbn [fst].
  2:{ split.
      - intros [= ->]. right. exists p. split; [reflexivity|]. right.
        exists raw. split; [exact Hcall|]. right. exists data. now split.
      - intros [[=]|(p' & [= <-] & Hrest)]. cbn zeta in Hrest. rewrite Hcall in Hrest.
        destruct Hrest as [[=]|(raw' & [= <-] & Hrest)]. rewrite Hraw in Hrest.
        destruct Hrest as [[=]|(data' & [= <-] & Hrest)]. rewrite Hdata in Hrest.
        injection Hrest as ->. reflexivity. }
  unfold normalize, try_except. split.
  - destruct (json_loads (clean_text text_out)); discriminate.
  - intros [[=]|(p' & [= <-] & Hrest)]. cbn zeta in Hrest. rewrite Hcall in Hrest.
    destruct Hrest as [[=]|(raw' & [= <-] & Hrest)]. rewrite Hraw in Hrest.
    destruct Hrest as [[=]|(data' & [= <-] & Hrest)]. rewrite Hdata in Hrest.
    discriminate.
Qed.

Lemma analyze_raises_iff_witness :
  fst (@analyze_with_bedrock (fixed_runtime (Raise (ClientError "throttled")))
         (security_store "{code}") "arn" "x" "Security" initial_world)
  = Raise (ClientError "throttled").
Proof.
  apply analyze_raises_iff. right. exists "x". split; [reflexivity|].
  left. reflexivity.
Defined.

(** X13.  A reply that decodes to an object without a [content] entry has
    the empty text; when the empty text is not JSON for the runtime, as for
    [json.loads], the invoker returns the fallback envelope with an empty
    description. *)
Theorem analyze_reply_without_content (R : Runtime) (fs : gmap string file)
  (arn text pillar : string) (w : world) (p raw : string)
  (d : list (string * json)) :
  load_prompt fs pillar text = Ok p ->
  invoke_model (requests (log_invocation text pillar w))
    (mkRequest arn "bedrock-2023-05-31" 4000 p) = Ok raw ->
  json_loads raw = Ok (JDict d) ->
  dict_get d "content" = None ->
  is_ok (json_loads "") = false ->
  fst (analyze_with_bedrock fs arn text pillar w) = Ok (fallback "" pillar).
Proof.
  intros Hload Hcall Hraw Hcontent Hempty. unfold analyze_with_bedrock.
  rewrite Hload, Hcall, Hraw. unfold extract_text, get_content.
  rewrite Hcontent. cbn [iter_items text_blocks join_values fst].
  unfold normalize. change (clean_text "") with "".
  now destruct (json_loads "").
Qed.

Lemma analyze_reply_without_content_witness :
  fst (@analyze_with_bedrock (fixed_runtime (Ok "{}")) (security_store "{code}")
         "arn" "x" "Security" initial_world)
  = Ok (fallback "" "Security").
Proof.
  apply (analyze_reply_without_content (fixed_runtime (Ok "{}"))
           (security_store "{code}") "arn" "x" "Security" initial_world
           "x" "{}" []);
    reflexivity.
Defined.

(** ** The orchestrator beyond its contract *)

Lemma units_of_length (content : string) :
  length (units_of content) = Nat.max 1 (ceil_div (String.length content) 2000).
Proof.
  unfold units_of.
  destruct (Nat.ltb_spec chunk_threshold (String.length content)) as [Hlt|Hle].
  - pose proof (chunks_of_long content Hlt) as Hlong.
    rewrite chunks_of_length in *. lia.
  - unfold chunk_threshold in Hle.
    destruct (ceil_div_spec (String.length content) 2000 ltac:(lia)) as [_ Hleast].
    specialize (Hleast 1 ltac:(lia)). cbn [length]. lia.
Qed.

(** X14.  For a file of [n] characters every pillar's list has
    [max(1, ceil(n / 2000))] outcomes, whatever the calls return or
    raise. *)
Theorem outcomes_per_pillar (R : Runtime) (fs : gmap string file)
  (arn content pillar : string) (w : world) :
  length (fst (pillar_results fs arn content pillar w))
  = Nat.max 1 (ceil_div (String.length content) 2000).
Proof.
  rewrite pillar_results_units, analyze_chunks_length.
  apply units_of_length.
Qed.

Lemma chunks_of_short (content : string) :
  content <> "" -> String.length content <= 2000 ->
  chunks_of content = [content].
Proof.
  intros Hne Hle. unfold chunks_of.
  rewrite chunk_text_one_chunk; [reflexivity | exact Hne |].
  unfold default_max_chars. lia.
Qed.

(** X15.  Up to the threshold the test on the length matters for the empty
    file only: a non-empty file would be cut into itself as its single
    chunk, with the same calls and outcomes, while the empty file, which
    the chunker cuts into no chunk at all, is still analysed by one call on
    the empty text. *)
Theorem whole_file_branch (R : Runtime) (fs : gmap string file)
  (arn content pillar : string) (w : world) :
  String.length content <= 2000 ->
  (content <> "" ->
     pillar_results fs arn content pillar w
     = analyze_chunks fs arn pillar (chunks_of content) w)
  /\ (content = "" ->
        chunks_of content = []
        /\ length (fst (pillar_results fs arn content pillar w)) = 1
        /\ invocations (snd (pillar_results fs arn content pillar w))
           = invocations w ++ [("", pillar)]).
Proof.
  intros Hle.
  assert (Hunits : units_of content = [content]).
  { unfold units_of, chunk_threshold.
    now destruct (Nat.ltb_spec 2000 (String.length content)); [lia|]. }
  split.
  - intros Hne. now rewrite pillar_results_units, Hunits, chunks_of_short.
  - intros ->. split; [reflexivity|].
    rewrite pillar_results_units, Hunits.
    split; [apply analyze_chunks_length | apply analyze_chunks_invocations].
Qed.

Lemma whole_file_branch_witness :
  length (fst (@pillar_results (fixed_runtime (Ok "")) ∅ "arn" "" "Security"
                 initial_world)) = 1.
Proof.
  destruct (whole_file_branch (fixed_runtime (Ok "")) ∅ "arn" "" "Security"
              initial_world) as [_ Hempty].
  - cbn. lia.
  - destruct (Hempty eq_refl) as (_ & Hone & _). exact Hone.
Defined.

(** X16.  The calls of a whole run are those of the files that are read,
    file after file in the order of the walk, and for each file pillar
    after pillar, unit after unit; a file that is passed over causes no
    call. *)
Theorem run_invocations (R : Runtime) (fs : gmap string file) (arn : string)
  (walk : list (string * list string * list string)) :
  invocations (snd (main fs arn (Some walk))) = calls_of_run fs walk.
Proof. rewrite main_walk. cbn [snd]. now rewrite walk_loop_invocations. Qed.

(** X17.  The report has an entry for a name exactly when the walk holds a
    file of that name that ends in [.tf] and is read: other files and
    unreadable files leave no trace in it. *)
Theorem report_keys (R : Runtime) (fs : gmap string file) (arn : string)
  (walk : list (string * list string * list string)) (name : string) :
  (exists report : analysis_report,
     fst (main fs arn (Some walk)) = Some report /\ is_Some (report !! name))
  <-> exists (root : string) (dirs files : list string) (content : string),
        (root, dirs, files) ∈ walk /\ name ∈ files
        /\ PyStr.endswith ".tf" name = true
        /\ read_file fs (PyStr.path_join root name) = Ok content.
Proof.
  rewrite main_walk. cbn [fst].
  assert (Hin : forall root files,
             name ∈ map fst (files_read_in fs root files)
             <-> name ∈ files /\ exists content, read_tf fs root name = Some content).
  { intros root files. induction files as [|file files IH].
    - cbn. rewrite !elem_of_nil. split; [easy | now intros [H _]].
    - cbn [files_read_in]. rewrite elem_of_cons.
      destruct (read_tf fs root file) as [content|] eqn:Hread.
      + cbn [map fst]. rewrite elem_of_cons, IH. split.
        * intros [->|[Hfiles Hc]]; [split; [now left | eauto] | split; [now right | exact Hc]].
        * intros [[->|Hfiles] Hc]; [now left | right; now split].
      + rewrite IH. split.
        * intros [Hfiles Hc]. split; [now right | exact Hc].
        * intros [[->|Hfiles] [content Hc]]; [congruence | split; eauto]. }
  assert (Hwalk : name ∈ map fst (files_read fs walk)
                  <-> exists root dirs files content,
                        (root, dirs, files) ∈ walk /\ name ∈ files
                        /\ read_tf fs root name = Some content).
  { induction walk as [|[[root dirs] files] walk' IH].
    - cbn. rewrite elem_of_nil. split; [easy|].
      intros (root & dirs & files & content & H & _). now apply elem_of_nil in H.
    - cbn [files_read]. rewrite map_app, elem_of_app, Hin, IH. split.
      + intros [[Hfiles [content Hc]]|(root' & dirs' & files' & content & Hw & Hf & Hc)].
        * exists root, dirs, files, content. split; [now left | now split].
        * exists root', dirs', files', content. split; [now right | now split].
      + intros (root' & dirs' & files' & content & Hw & Hf & Hc).
        apply elem_of_cons in Hw as [[= -> -> ->]|Hw].
        * left. split; eauto.
        * right. exists root', dirs', files', content. now split. }
  split.
  - intros (report & [= <-] & Hsome).
    apply elem_of_dom in Hsome. rewrite walk_loop_dom, dom_empty_L in Hsome.
    rewrite union_empty_l_L, elem_of_list_to_set, Hwalk in Hsome.
    destruct Hsome as (root & dirs & files & content & Hw & Hf & Hc).
    apply read_tf_Some in Hc. exists root, dirs, files, content. tauto.
  - intros (root & dirs & files & content & Hw & Hf & Htf & Hread).
    eexists. split; [reflexivity|].
    apply elem_of_dom. rewrite walk_loop_dom, dom_empty_L.
    rewrite union_empty_l_L, elem_of_list_to_set, Hwalk.
    exists root, dirs, files, content. split; [exact Hw|]. split; [exact Hf|].
    now apply read_tf_Some.
Qed.

Lemma report_keys_witness :
  exists report : analysis_report,
    fst (@main (fixed_runtime (Ok ""))
           {[ "infra/main.tf" := Readable "resource {}" ]} "arn"
           (Some [("infra", [], ["main.tf"; "notes.md"; "gone.tf"])]))
    = Some report
    /\ is_Some (report !! "main.tf").
Proof.
  apply (report_keys (fixed_runtime (Ok ""))
           {[ "infra/main.tf" := Readable "resource {}" ]} "arn"
           [("infra", [], ["main.tf"; "notes.md"; "gone.tf"])] "main.tf").
  exists "infra", [], ["main.tf"; "notes.md"; "gone.tf"], "resource {}".
  split; [apply list_elem_of_here|]. split; [apply list_elem_of_here|].
  split; reflexivity.
Defined.

Section Invariant.
Context {R : Runtime}.
Variables (fs : gmap string file) (arn : string).

(** What holds of the world before a call of the invoker and is kept by
    every call, holds after the loops. *)
Variable Inv : world -> Prop.
Hypothesis Inv_call : forall text pillar w,
  Inv w -> Inv (snd (analyze_with_bedrock fs arn text pillar w)).

Lemma analyze_chunks_inv (pillar : string) (chunks : list string) (w : world) :
  Inv w -> Inv (snd (analyze_chunks fs arn pillar chunks w)).
Proof.
  revert w; induction chunks as [|chunk chunks IH]; intros w Hw; [exact Hw|].
  rewrite analyze_chunks_cons. cbn [snd]. now apply IH, Inv_call.
Qed.

Lemma pillar_loop_inv (content : string) (ps : list string)
  (file_results : file_report) (w : world) :
  Inv w -> Inv (snd (pillar_loop fs arn content ps file_results w)).
Proof.
  revert file_results w; induction ps as [|p ps IH]; intros file_results w Hw;
    [exact Hw|].
  rewrite pillar_loop_cons. apply IH.
  rewrite pillar_results_units. now apply analyze_chunks_inv.
Qed.

Lemma file_loop_inv (root : string) (files : list string)
  (results : analysis_report) (w : world) :
  Inv w -> Inv (snd (file_loop fs arn root files results w)).
Proof.
  revert results w; induction files as [|file files IH]; intros results w Hw;
    [exact Hw|].
  rewrite file_loop_step. destruct (read_tf fs root file); [|now apply IH].
  now apply IH, pillar_loop_inv.
Qed.

Lemma walk_loop_inv (walk : list (string * list string * list string))
  (results : analysis_report) (w : world) :
  Inv w -> Inv (snd (walk_loop fs arn walk results w)).
Proof.
  revert results w; induction walk as [|[[root dirs] files] walk IH];
    intros results w Hw; [exact Hw|].
  rewrite walk_loop_cons. now apply IH, file_loop_inv.
Qed.

End Invariant.

(** X18.  Every request of a run carries the inference profile and the
    fixed version marker and token budget, and a run never sends more
    requests than it makes calls of the invoker: nothing is retried. *)
Theorem run_requests (R : Runtime) (fs : gmap string file) (arn : string)
  (tree : option (list (string * list string * list string))) :
  Forall (fixed_parameters arn) (requests (snd (main fs arn tree)))
  /\ length (requests (snd (main fs arn tree)))
     <= length (invocations (snd (main fs arn tree))).
Proof.
  destruct tree as [walk|]; [|split; [constructor | reflexivity]].
  rewrite main_walk. cbn [snd].
  apply (walk_loop_inv fs arn
           (fun w => Forall (fixed_parameters arn) (requests w)
                     /\ length (requests w) <= length (invocations w))).
  - intros text pillar w [Hfixed Hcount].
    rewrite analyze_sends_one_request_eq, analyze_invocations.
    rewrite length_app. cbn [length].
    destruct (load_prompt fs pillar text) as [p|e].
    + split.
      * apply Forall_app. split; [exact Hfixed|].
        constructor; [now repeat split | constructor].
      * rewrite length_app. cbn [length]. lia.
    + split; [exact Hfixed | lia].
  - split; [constructor | reflexivity].
Qed.

(** ** The repository set-up and the entry point *)

(** Case analysis on what the host answers to the next operation. *)
Ltac next_op :=
  match goal with
  | |- context [op_raises ?h ?done ?op] =>
      let E := fresh "Hop" in
      destruct (op_raises h done op) as [[|?]|] eqn:E; cbn [fst snd perform_all]
  end.

Example setup_on_broken_host :
  setup_repository broken_host repo_url clone_dir []
  = (Some (OtherException (OSError "clone failed")),
     [PathExists clone_dir; OpenRepo clone_dir; Rmtree clone_dir;
      CloneFrom repo_url clone_dir]).
Proof. reflexivity. Qed.

Example setup_on_offline_host :
  setup_repository offline_host repo_url clone_dir []
  = (None, [PathExists clone_dir; OpenRepo clone_dir; RemoteOrigin; Pull]).
Proof. reflexivity. Qed.

Lemma setup_raise_is_last (h : host)
  (url dir : string) (done : list host_op) (e : setup_exn) :
  fst (setup_repository h url dir done) = Some e ->
  exists (before : list host_op) (op : host_op),
    snd (setup_repository h url dir done) = before ++ [op]
    /\ (op = Rmtree dir \/ op = CloneFrom url dir)
    /\ op_raises h before op = Some e.
Proof.
  unfold setup_repository.
  destruct (path_exists h done dir); cbn [perform_all];
    repeat next_op; intros [= <-]; eauto 10.
Qed.

(** X19.  The set-up lets an exception out only when removing the
    directory or cloning raised it, and that operation is then the last
    one performed: a failure to open the repository, to find its origin or
    to pull never leaves [setup_repository]. *)
Theorem setup_raises_only_from_rmtree_or_clone (h : host)
  (url dir : string) (done : list host_op) (e : setup_exn) :
  fst (setup_repository h url dir done) = Some e ->
  exists (before : list host_op) (op : host_op),
    snd (setup_repository h url dir done) = before ++ [op]
    /\ (op = Rmtree dir \/ op = CloneFrom url dir)
    /\ op_raises h before op = Some e.
Proof. apply setup_raise_is_last. Qed.

Lemma setup_raises_only_from_rmtree_or_clone_witness :
  exists (before : list host_op) (op : host_op),
    snd (setup_repository broken_host repo_url clone_dir []) = before ++ [op]
    /\ (op = Rmtree clone_dir \/ op = CloneFrom repo_url clone_dir)
    /\ op_raises broken_host before op
       = Some (OtherException (OSError "clone failed")).
Proof.
  apply (setup_raises_only_from_rmtree_or_clone broken_host repo_url clone_dir []).
  reflexivity.
Defined.

(** X20.  When the directory exists and none of the opening of the
    repository, the look-up of its origin and the pull raises
    [InvalidGitRepositoryError], the set-up returns normally and performs
    nothing but the test on the path and a non-empty prefix of these three
    operations: the directory is neither removed nor cloned over, also
    when the pull fails. *)
Theorem setup_keeps_existing_repository (h : host) (url dir : string)
  (done : list host_op) :
  path_exists h done dir = true ->
  (forall before op, op ∈ [OpenRepo dir; RemoteOrigin; Pull] ->
     op_raises h before op <> Some InvalidGitRepositoryError) ->
  fst (setup_repository h url dir done) = None
  /\ exists k : nat,
       1 <= k <= 3
       /\ snd (setup_repository h url dir done)
          = done ++ PathExists dir :: take k [OpenRepo dir; RemoteOrigin; Pull].
Proof.
  intros Hexists Hvalid. unfold setup_repository. rewrite Hexists.
  assert (H1 := Hvalid (done ++ [PathExists dir]) (OpenRepo dir)).
  assert (H2 := Hvalid ((done ++ [PathExists dir]) ++ [OpenRepo dir]) RemoteOrigin).
  assert (H3 := Hvalid (((done ++ [PathExists dir]) ++ [OpenRepo dir]) ++ [RemoteOrigin])
                  Pull).
  cbn [perform_all].
  destruct (op_raises h (done ++ [PathExists dir]) (OpenRepo dir)) as [[|e1]|].
  - exfalso. apply H1; [|reflexivity]. repeat constructor.
  - split; [reflexivity|]. exists 1. split; [lia|]. now rewrite <- app_assoc.
  - destruct (op_raises h _ RemoteOrigin) as [[|e2]|].
    + exfalso. apply H2; [|reflexivity]. repeat constructor.
    + split; [reflexivity|]. exists 2. split; [lia|]. now rewrite <- !app_assoc.
    + destruct (op_raises h _ Pull) as [[|e3]|].
      * exfalso. apply H3; [|reflexivity]. repeat constructor.
      * split; [reflexivity|]. exists 3. split; [lia|]. now rewrite <- !app_assoc.
      * split; [reflexivity|]. exists 3. split; [lia|]. now rewrite <- !app_assoc.
Qed.

Lemma setup_keeps_existing_repository_witness :
  fst (setup_repository offline_host repo_url clone_dir []) = None
  /\ exists k : nat,
       1 <= k <= 3
       /\ snd (setup_repository offline_host repo_url clone_dir [])
          = [] ++ PathExists clone_dir
               :: take k [OpenRepo clone_dir; RemoteOrigin; Pull].
Proof.
  apply (setup_keeps_existing_repository offline_host repo_url clone_dir []).
  - reflexivity.
  - intros before op Hop. destruct op; cbn; discriminate.
Defined.

Section Script.
Variables (h : host) (R : Runtime) (env : option string) (profile : string).

(** How [main(profile)] ends, from whatever was performed before it. *)
Lemma main_from_profile_outcome (done : list host_op) :
  let out := main_from_profile h R env profile done in
  (forall e, raised out = Some e ->
     exists (before : list host_op) (op : host_op),
       ops out = before ++ [op]
       /\ op_raises h before op = Some e
       /\ (((op = Rmtree clone_dir \/ op = CloneFrom repo_url clone_dir
             \/ op = NewSession profile "us-west-2"
             \/ op = NewClient "bedrock-runtime")
            /\ report out = None /\ final_world out = initial_world)
           \/ exists (done2 : list host_op) (results : analysis_report),
                before = done2 ++ [PathExists tf_dir]
                /\ op = WriteResults (results_file h before) results
                /\ path_exists h done2 tf_dir = true
                /\ report out = Some results
                /\ main (files_of h before) (inference_profile_arn env)
                        (Some (walk_of h before tf_dir))
                   = (Some results, final_world out)))
  /\ (raised out = None ->
      exists before : list host_op,
        (ops out = before ++ [PathExists tf_dir]
         /\ path_exists h before tf_dir = false
         /\ report out = None /\ final_world out = initial_world)
        \/ exists results : analysis_report,
             ops out
             = (before ++ [PathExists tf_dir])
               ++ [WriteResults (results_file h (before ++ [PathExists tf_dir]))
                     results]
             /\ op_raises h (before ++ [PathExists tf_dir])
                  (WriteResults (results_file h (before ++ [PathExists tf_dir]))
                     results) = None
             /\ path_exists h before tf_dir = true
             /\ report out = Some results
             /\ main (files_of h (before ++ [PathExists tf_dir]))
                     (inference_profile_arn env)
                     (Some (walk_of h (before ++ [PathExists tf_dir]) tf_dir))
                = (Some results, final_world out)).
Proof.
  unfold main_from_profile. cbn [perform_all].
  destruct (op_raises h done (NewSession profile "us-west-2")) as [e1|] eqn:H1.
  { unfold aborted; cbn [raised ops report final_world]. split; [|discriminate].
    intros e [= <-]. eexists _, _. split; [reflexivity|]. split; [exact H1|].
    left. tauto. }
  destruct (op_raises h (done ++ [NewSession profile "us-west-2"])
              (NewClient "bedrock-runtime")) as [e2|] eqn:H2.
  { unfold aborted; cbn [raised ops report final_world]. split; [|discriminate].
    intros e [= <-]. eexists _, _. split; [reflexivity|]. split; [exact H2|].
    left. tauto. }
  destruct (setup_repository h repo_url clone_dir _) as [[e3|] done2] eqn:Hsetup.
  { unfold aborted; cbn [raised ops report final_world]. split; [|discriminate].
    intros e [= <-].
    destruct (setup_raise_is_last h repo_url clone_dir _ e3
                ltac:(now rewrite Hsetup)) as (before & op & Hops & Hop & Hraise).
    rewrite Hsetup in Hops. cbn [snd] in Hops.
    exists before, op. split; [exact Hops|]. split; [exact Hraise|].
    left. tauto. }
  destruct (path_exists h done2 tf_dir) eqn:Htf.
  - rewrite main_walk.
    set (results := fst (walk_loop _ _ _ ∅ initial_world)).
    set (w := snd (walk_loop _ _ _ ∅ initial_world)).
    cbn [raised ops report final_world]. split.
    + intros e He. eexists _, _. split; [reflexivity|]. split; [exact He|].
      right. exists done2, results. split; [reflexivity|].
      split; [reflexivity|]. split; [exact Htf|]. split; [reflexivity|].
      now rewrite main_walk.
    + intros Hnone. exists done2. right. exists results.
      split; [reflexivity|]. split; [exact Hnone|]. split; [exact Htf|].
      split; [reflexivity|]. now rewrite main_walk.
  - cbn [main raised ops report final_world]. split; [discriminate|].
    intros _. exists done2. left. tauto.
Qed.

End Script.

Example script_on_broken_host :
  script broken_host (fixed_runtime (Ok "")) None "dev" false
  = aborted (OtherException (OSError "clone failed"))
      [NewSession "dev" "us-west-2"; NewClient "bedrock-runtime";
       PathExists clone_dir; OpenRepo clone_dir; Rmtree clone_dir;
       CloneFrom repo_url clone_dir].
Proof. reflexivity. Qed.

Example script_on_full_disk :
  let out := script full_disk_host (fixed_runtime (Ok "")) None "dev" false in
  raised out = Some (OtherException (OSError "No space left on device"))
  /\ length (invocations (final_world out)) = 6
  /\ reported_files (report out) = Some ["main.tf"]
  /\ length (ops out) = 8.
Proof. vm_compute. repeat split; reflexivity. Qed.

(** X21.  Console output aside, a run of the script ends with an exception
    only when creating the session or the client, removing the clone
    directory, cloning, or writing the results file raised it, and that
    operation is then the last one performed.  In the first four cases
    nothing has been analysed; in the last the analysis that [main] models
    is complete and its report is not saved.  A run without exception ends
    either with the test on a missing [tf_dir], nothing analysed and
    nothing written, or with the writing of the report that [main] built
    from what the host showed after the set-up.  No failure of a pull, of
    a file or of a call of the invoker ends a run. *)
Theorem script_outcome (h : host) (R : Runtime) (env : option string)
  (profile : string) (force_clone : bool) :
  let out := script h R env profile force_clone in
  (forall e, raised out = Some e ->
     exists (before : list host_op) (op : host_op),
       ops out = before ++ [op]
       /\ op_raises h before op = Some e
       /\ (((op = Rmtree clone_dir \/ op = CloneFrom repo_url clone_dir
             \/ op = NewSession profile "us-west-2"
             \/ op = NewClient "bedrock-runtime")
            /\ report out = None /\ final_world out = initial_world)
           \/ exists (done2 : list host_op) (results : analysis_report),
                before = done2 ++ [PathExists tf_dir]
                /\ op = WriteResults (results_file h before) results
                /\ path_exists h done2 tf_dir = true
                /\ report out = Some results
                /\ main (files_of h before) (inference_profile_arn env)
                        (Some (walk_of h before tf_dir))
                   = (Some results, final_world out)))
  /\ (raised out = None ->
      exists before : list host_op,
        (ops out = before ++ [PathExists tf_dir]
         /\ path_exists h before tf_dir = false
         /\ report out = None /\ final_world out = initial_world)
        \/ exists results : analysis_report,
             ops out
             = (before ++ [PathExists tf_dir])
               ++ [WriteResults (results_file h (before ++ [PathExists tf_dir]))
                     results]
             /\ op_raises h (before ++ [PathExists tf_dir])
                  (WriteResults (results_file h (before ++ [PathExists tf_dir]))
                     results) = None
             /\ path_exists h before tf_dir = true
             /\ report out = Some results
             /\ main (files_of h (before ++ [PathExists tf_dir]))
                     (inference_profile_arn env)
                     (Some (walk_of h (before ++ [PathExists tf_dir]) tf_dir))
                = (Some results, final_world out)).
Proof.
  unfold script. destruct force_clone; [|apply main_from_profile_outcome].
  destruct (path_exists h [] clone_dir); [|apply main_from_profile_outcome].
  destruct (op_raises h [PathExists clone_dir] (Rmtree clone_dir)) as [e0|] eqn:Hrm;
    [|apply main_from_profile_outcome].
  unfold aborted; cbn [raised ops report final_world]. split; [|discriminate].
  intros e [= <-].
  exists [PathExists clone_dir], (Rmtree clone_dir).
  split; [reflexivity|]. split; [exact Hrm|]. left. tauto.
Qed.

Lemma script_outcome_witness :
  (exists (before : list host_op) (op : host_op),
     ops (script broken_host (fixed_runtime (Ok "")) None "dev" false)
     = before ++ [op]
     /\ op_raises broken_host before op
        = Some (OtherException (OSError "clone failed")))
  /\ (exists (before : list host_op) (op : host_op),
        ops (script full_disk_host (fixed_runtime (Ok "")) None "dev" false)
        = before ++ [op]
        /\ op_raises full_disk_host before op
           = Some (OtherException (OSError "No space left on device"))).
Proof.
  split.
  - destruct (script_outcome broken_host (fixed_runtime (Ok "")) None "dev" false)
      as [Habort _].
    destruct (Habort (OtherException (OSError "clone failed")) eq_refl)
      as (before & op & Hops & Hraise & _).
    now exists before, op.
  - destruct (script_outcome full_disk_host (fixed_runtime (Ok "")) None "dev" false)
      as [Habort _].
    destruct (Habort (OtherException (OSError "No space left on device")) eq_refl)
      as (before & op & Hops & Hraise & _).
    now exists before, op.
Defined.

Lemma removed_without_clone (done : list host_op) :
  (forall url path, CloneFrom url path ∉ done) -> removed done true = true.
Proof.
  induction done as [|op done IH]; intros Hnone; [reflexivity|].
  assert (Hrest : forall url path, CloneFrom url path ∉ done).
  { intros url path Hin. apply (Hnone url path). now right. }
  destruct op; cbn [removed]; try (now apply IH).
  exfalso. eapply Hnone. now left.
Qed.

Example forced_clone_on_quiet_host :
  map (fun op => match op with WriteResults name _ => WriteResults name ∅ | _ => op end)
      (ops (script quiet_host (fixed_runtime (Ok "")) None "dev" true))
  = [PathExists clone_dir; Rmtree clone_dir;
     NewSession "dev" "us-west-2"; NewClient "bedrock-runtime";
     PathExists clone_dir; CloneFrom repo_url clone_dir; PathExists tf_dir;
     WriteResults "results_20250101_000000.json" ∅].
Proof. vm_compute. reflexivity. Qed.

(** X22.  With [--force-clone], when the clone directory exists, its
    removal succeeds and the directory stays away until something is
    cloned, the script never opens the old repository and never pulls:
    the only git operation left is the clone, which is performed whenever
    the session and the client can be created. *)
Theorem force_clone_never_pulls (h : host) (R : Runtime) (env : option string)
  (profile : string) :
  path_exists h [] clone_dir = true ->
  op_raises h [PathExists clone_dir] (Rmtree clone_dir) = None ->
  (forall done : list host_op,
     (forall url path, CloneFrom url path ∉ done) ->
     path_exists h ([PathExists clone_dir; Rmtree clone_dir] ++ done) clone_dir
     = false) ->
  let out := script h R env profile true in
  Forall (fun op => op <> Pull /\ op <> RemoteOrigin /\ op <> OpenRepo clone_dir)
         (ops out)
  /\ (CloneFrom repo_url clone_dir ∈ ops out
      \/ exists op, (op = NewSession profile "us-west-2"
                     \/ op = NewClient "bedrock-runtime")
                    /\ raised out <> None /\ last (ops out) = Some op).
Proof.
  intros Hexists Hrm Haway. unfold script. rewrite Hexists, Hrm.
  unfold main_from_profile. cbn [perform_all app].
  destruct (op_raises h _ (NewSession profile "us-west-2")) as [e1|].
  { unfold aborted; cbn [raised ops]. split.
    - repeat constructor; discriminate.
    - right. eexists. split; [now left|]. split; [discriminate | reflexivity]. }
  destruct (op_raises h _ (NewClient "bedrock-runtime")) as [e2|].
  { unfold aborted; cbn [raised ops app]. split.
    - repeat constructor; discriminate.
    - right. eexists. split; [now right|]. split; [discriminate | reflexivity]. }
  unfold setup_repository. cbn [app].
  assert (Hgone := Haway [NewSession profile "us-west-2"; NewClient "bedrock-runtime"]).
  cbn [app] in Hgone. rewrite Hgone.
  2:{ intros url path Hin.
      repeat (apply elem_of_cons in Hin as [Hin|Hin]; [discriminate|]).
      now apply elem_of_nil in Hin. }
  cbn [perform_all app].
  destruct (op_raises h _ (CloneFrom repo_url clone_dir)) as [e3|].
  { unfold aborted; cbn [raised ops]. split.
    - repeat constructor; discriminate.
    - left. do 5 right. now left. }
  destruct (main _ _ _) as [[results|] w]; cbn [ops app]; split;
    try (repeat constructor; discriminate);
    left; do 5 right; now left.
Qed.

Lemma force_clone_never_pulls_witness :
  Forall (fun op => op <> Pull /\ op <> RemoteOrigin /\ op <> OpenRepo clone_dir)
         (ops (script quiet_host (fixed_runtime (Ok "")) None "dev" true)).
Proof.
  apply (force_clone_never_pulls quiet_host (fixed_runtime (Ok "")) None "dev").
  - reflexivity.
  - reflexivity.
  - intros done Hnone.
    change (negb (removed done true) = false).
    now rewrite removed_without_clone.
Defined.
